(** * ng-fetch: system report and toolchain detection

    A shallow embedding of the Go sources of ng-fetch
    ([cmd/root.go], [system/SystemInfo.go], the [ascii], [utils] and
    report-renderer files) together with the properties of its
    specification.

    Go strings are byte sequences: they are modelled as [string], whose
    characters are the bytes.  Go's [int] is a 64-bit two's-complement
    integer, modelled as [Z] with the wrap-around written out.  [float64]
    is IEEE 754 binary64, modelled with the reference implementation
    [SpecFloat] (precision 53, maximal exponent 1024). *)

From Stdlib Require Import ZArith NArith Lia Bool List.
From Stdlib Require Import Strings.Ascii Strings.String.
From Stdlib Require Import Numbers.DecimalString.
From Stdlib Require Import Floats.SpecFloat.
Import ListNotations.

Local Open Scope string_scope.
Local Open Scope Z_scope.

(* ===================================================================== *)
(** * Bytes and a few characters *)
(* ===================================================================== *)

Definition byte_val (c : ascii) : Z := Z.of_N (N_of_ascii c).

Definition byte_of (n : Z) : ascii := ascii_of_N (Z.to_N (n mod 256)).

Definition dquote : ascii := "034"%char.
Definition newline : ascii := "010"%char.
Definition escape : ascii := "027"%char.
Definition space : ascii := " "%char.

Definition str (c : ascii) : string := String c "".

Fixpoint bytes_of (l : list Z) : string :=
  match l with
  | [] => ""
  | b :: t => String (byte_of b) (bytes_of t)
  end.

(* ===================================================================== *)
(** * Package [unicode/utf8] *)
(* ===================================================================== *)

Module utf8.

Definition RuneError : Z := 0xFFFD.
Definition RuneSelf : Z := 0x80.
Definition MaxRune : Z := 0x10FFFF.
Definition UTFMax : nat := 4.

Definition surrogateMin : Z := 0xD800.
Definition surrogateMax : Z := 0xDFFF.

Definition locb : Z := 0x80.
Definition hicb : Z := 0xBF.

Definition maskx : Z := 0x3F.
Definition mask2 : Z := 0x1F.
Definition mask3 : Z := 0x0F.
Definition mask4 : Z := 0x07.

Definition t1 : Z := 0x00.
Definition tx : Z := 0x80.
Definition t2 : Z := 0xC0.
Definition t3 : Z := 0xE0.
Definition t4 : Z := 0xF0.

Definition rune1Max : Z := 0x7F.
Definition rune2Max : Z := 0x7FF.
Definition rune3Max : Z := 0xFFFF.

(** Entries of the table [first]: the low three bits are the length of
    the encoding, the high four bits index [acceptRanges]. *)
Definition xx : Z := 0xF1.
Definition as_ : Z := 0xF0.
Definition s1 : Z := 0x02.
Definition s2 : Z := 0x13.
Definition s3 : Z := 0x03.
Definition s4 : Z := 0x23.
Definition s5 : Z := 0x34.
Definition s6 : Z := 0x04.
Definition s7 : Z := 0x44.

Definition first (b : Z) : Z :=
  if b <? 0x80 then as_
  else if b <? 0xC2 then xx
  else if b <? 0xE0 then s1
  else if b =? 0xE0 then s2
  else if b <? 0xED then s3
  else if b =? 0xED then s4
  else if b <? 0xF0 then s3
  else if b =? 0xF0 then s5
  else if b <? 0xF4 then s6
  else if b =? 0xF4 then s7
  else xx.

Definition acceptRanges (i : Z) : Z * Z :=
  if i =? 0 then (locb, hicb)
  else if i =? 1 then (0xA0, hicb)
  else if i =? 2 then (locb, 0x9F)
  else if i =? 3 then (0x90, hicb)
  else if i =? 4 then (locb, 0x8F)
  else (0, 0).

(** [DecodeRuneInString s]: the first rune of [s] and its width in
    bytes; an invalid encoding decodes to [(RuneError, 1)], the empty
    string to [(RuneError, 0)]. *)
Definition DecodeRuneInString (s : string) : Z * nat :=
  match s with
  | "" => (RuneError, 0%nat)
  | String c0 r0 =>
    let b0 := byte_val c0 in
    let x := first b0 in
    if as_ <=? x then
      (if x =? as_ then b0 else RuneError, 1%nat)
    else
      let sz := Z.land x 7 in
      let '(lo, hi) := acceptRanges (Z.shiftr x 4) in
      if (Z.of_nat (length s) <? sz) then (RuneError, 1%nat) else
      match r0 with
      | "" => (RuneError, 1%nat)
      | String c1 r1 =>
        let b1 := byte_val c1 in
        if (b1 <? lo) || (hi <? b1) then (RuneError, 1%nat) else
        if sz <=? 2 then
          (Z.lor (Z.shiftl (Z.land b0 mask2) 6) (Z.land b1 maskx), 2%nat)
        else
        match r1 with
        | "" => (RuneError, 1%nat)
        | String c2 r2 =>
          let b2 := byte_val c2 in
          if (b2 <? locb) || (hicb <? b2) then (RuneError, 1%nat) else
          if sz <=? 3 then
            (Z.lor (Z.lor (Z.shiftl (Z.land b0 mask3) 12)
                          (Z.shiftl (Z.land b1 maskx) 6))
                   (Z.land b2 maskx), 3%nat)
          else
          match r2 with
          | "" => (RuneError, 1%nat)
          | String c3 _ =>
            let b3 := byte_val c3 in
            if (b3 <? locb) || (hicb <? b3) then (RuneError, 1%nat) else
            (Z.lor (Z.lor (Z.lor (Z.shiftl (Z.land b0 mask4) 18)
                                 (Z.shiftl (Z.land b1 maskx) 12))
                          (Z.shiftl (Z.land b2 maskx) 6))
                   (Z.land b3 maskx), 4%nat)
          end
        end
      end
  end.

(** The runes of a string in order, each with the bytes that encode it:
    what [for i, r := range s] enumerates.  [skip] counts the bytes of
    the current rune that are still to be passed over. *)
Fixpoint runes_from (skip : nat) (s : string) : list (Z * string) :=
  match s with
  | "" => []
  | String _ rest =>
    match skip with
    | S k => runes_from k rest
    | O =>
      let '(r, size) := DecodeRuneInString s in
      (r, substring 0 size s) :: runes_from (size - 1) rest
    end
  end.

Definition runes (s : string) : list (Z * string) := runes_from 0 s.

(** [RuneCountInString]: one count per decoding step, an invalid byte
    counting as one rune of width 1. *)
Fixpoint count_from (skip : nat) (s : string) : Z :=
  match s with
  | "" => 0
  | String _ rest =>
    match skip with
    | S k => count_from k rest
    | O => 1 + count_from (snd (DecodeRuneInString s) - 1) rest
    end
  end.

Definition RuneCountInString (s : string) : Z := count_from 0 s.

(** [EncodeRune] (as [string(rune)] and [AppendRune] do): surrogates and
    out-of-range values are written as [RuneError]. *)
Definition encode3 (r : Z) : string :=
  bytes_of [Z.lor t3 (Z.shiftr r 12);
            Z.lor tx (Z.land (Z.shiftr r 6) maskx);
            Z.lor tx (Z.land r maskx)].

Definition EncodeRune (r : Z) : string :=
  if (0 <=? r) && (r <=? rune1Max) then bytes_of [r]
  else if (0 <=? r) && (r <=? rune2Max) then
    bytes_of [Z.lor t2 (Z.shiftr r 6); Z.lor tx (Z.land r maskx)]
  else if (r <? 0) || (MaxRune <? r)
          || ((surrogateMin <=? r) && (r <=? surrogateMax)) then
    encode3 RuneError
  else if r <=? rune3Max then encode3 r
  else
    bytes_of [Z.lor t4 (Z.shiftr r 18);
              Z.lor tx (Z.land (Z.shiftr r 12) maskx);
              Z.lor tx (Z.land (Z.shiftr r 6) maskx);
              Z.lor tx (Z.land r maskx)].

Definition ValidRune (r : Z) : bool :=
  ((0 <=? r) && (r <? surrogateMin))
  || ((surrogateMax <? r) && (r <=? MaxRune)).

End utf8.

(** A string literal of the source given by its code points. *)
Fixpoint utf8_of (cps : list Z) : string :=
  match cps with
  | [] => ""
  | r :: t => utf8.EncodeRune r ++ utf8_of t
  end.


(* ===================================================================== *)
(** * Packages [unicode] and [strings] *)
(* ===================================================================== *)

Module unicode.

Definition MaxLatin1 : Z := 0xFF.

(** [IsSpace]: the Latin-1 white space, then the table [White_Space]. *)
Definition IsSpace (r : Z) : bool :=
  if (0 <=? r) && (r <=? MaxLatin1) then
    (r =? 0x09) || (r =? 0x0A) || (r =? 0x0B) || (r =? 0x0C) || (r =? 0x0D)
    || (r =? 0x20) || (r =? 0x85) || (r =? 0xA0)
  else
    (r =? 0x1680) || ((0x2000 <=? r) && (r <=? 0x200A))
    || (r =? 0x2028) || (r =? 0x2029) || (r =? 0x202F)
    || (r =? 0x205F) || (r =? 0x3000).

End unicode.

Module strings.

Fixpoint Repeat (s : string) (count : nat) : string :=
  match count with
  | O => ""
  | S k => s ++ Repeat s k
  end.

Definition HasPrefix (s pre : string) : bool := prefix pre s.

Definition TrimPrefix (s pre : string) : string :=
  if HasPrefix s pre then substring (length pre) (length s - length pre) s
  else s.

(** [Contains s substr]: [substr] occurs somewhere in [s]. *)
Fixpoint Contains (s substr : string) : bool :=
  prefix substr s ||
  match s with
  | "" => false
  | String _ rest => Contains rest substr
  end.

(** [Split s sep] for a non-empty separator: the pieces of [s] between
    the successive, non-overlapping occurrences of [sep], left to right.
    [cur] holds the bytes of the piece being read, last byte first;
    [skip] the bytes of a separator still to be passed over. *)
Fixpoint rev_string (acc s : string) : string :=
  match s with
  | "" => acc
  | String c rest => rev_string (String c acc) rest
  end.

Fixpoint split_from (sep : string) (skip : nat) (cur : string) (s : string)
  : list string :=
  match s with
  | "" => [rev_string "" cur]
  | String c rest =>
    match skip with
    | S k => split_from sep k cur rest
    | O =>
      if prefix sep s
      then rev_string "" cur :: split_from sep (length sep - 1) "" rest
      else split_from sep 0 (String c cur) rest
    end
  end.

Definition Split (s sep : string) : list string := split_from sep 0 "" s.

(** [Fields]: the maximal runs of runes that are not white space. *)
Fixpoint fields_of (cur : string) (rs : list (Z * string)) : list string :=
  match rs with
  | [] => if (length cur =? 0)%nat then [] else [cur]
  | (r, bs) :: rest =>
    if unicode.IsSpace r then
      (if (length cur =? 0)%nat then fields_of "" rest
       else cur :: fields_of "" rest)
    else fields_of (cur ++ bs) rest
  end.

Definition Fields (s : string) : list string := fields_of "" (utf8.runes s).

(** [TrimSpace]: [s] without its leading and trailing white-space
    runes. *)
Fixpoint drop_space (rs : list (Z * string)) : list (Z * string) :=
  match rs with
  | [] => []
  | (r, bs) :: rest => if unicode.IsSpace r then drop_space rest else rs
  end.

Fixpoint join_bytes (rs : list (Z * string)) : string :=
  match rs with
  | [] => ""
  | (_, bs) :: rest => bs ++ join_bytes rest
  end.

Definition TrimSpace (s : string) : string :=
  join_bytes (rev (drop_space (rev (drop_space (utf8.runes s))))).

(** [Repeat] with the count as the [int] it is: a negative count
    panics ([None]). *)
Definition Repeat_int (s : string) (count : Z) : option string :=
  if (count <? 0)%Z then None else Some (Repeat s (Z.to_nat count)).

Definition HasSuffix (s suffix : string) : bool :=
  (length suffix <=? length s)%nat
  && String.eqb (substring (length s - length suffix) (length suffix) s)
                suffix.

End strings.

(* ===================================================================== *)
(** * Toolchain detection ([system/SystemInfo.go]) *)
(* ===================================================================== *)

Local Open Scope string_scope.

(** What [cmd.CombinedOutput()] hands back: the captured bytes and the
    error, [None] for a child that ran and exited with status 0. *)
Record ExecResult := mkExec {
  exec_output : string;
  exec_err : option string
}.

(** The machine the program runs on, as far as detection sees it:
    [runtime.GOOS] and the outcome of starting a command. *)
Record Machine := mkMachine {
  GOOS : string;
  CombinedOutput : string -> list string -> ExecResult
}.

Record Language := mkLanguage {
  Icon : string;
  Name : string;
  Version : string
}.

Definition languageDetector (name icon version : string) : Language :=
  {| Name := name; Icon := icon; Version := version |}.

(** The command [exec.Command] is given: through [cmd /c] on Windows,
    directly elsewhere. *)
Definition probe_command (m : Machine) (command : string) (args : list string)
  : string * list string :=
  let fullCmd := command :: args in
  if GOOS m =? "windows" then ("cmd", "/c" :: fullCmd)
  else (command, args).

Definition is_command (command : string) (names : list string) : bool :=
  existsb (String.eqb command) names.

(** The loop over the lines of the [java] output. *)
Fixpoint java_scan (lines : list string) : option string :=
  match lines with
  | [] => None
  | line :: rest =>
    if strings.Contains line "version" then
      match strings.Split line (str dquote) with
      | _ :: p1 :: _ => Some p1
      | _ => java_scan rest
      end
    else java_scan rest
  end.

Definition processVersionString (command version : string) : string :=
  if is_command command ["python"; "ruby"; "go"; "rustc"] then
    match strings.Fields version with
    | _ :: p1 :: _ => p1
    | _ => version
    end
  else if command =? "node" then
    strings.TrimPrefix version "v"
  else if command =? "java" then
    match java_scan (strings.Split version (str newline)) with
    | Some v => v
    | None => version
    end
  else if command =? "php" then
    match strings.Fields version with
    | p0 :: _ => p0
    | [] => version
    end
  else version.

Definition runCommand (m : Machine) (command : string) (args : list string)
  : string :=
  let '(name, argv) := probe_command m command args in
  let r := CombinedOutput m name argv in
  match exec_err r with
  | Some _ => ""
  | None =>
    let version := strings.TrimSpace (exec_output r) in
    processVersionString command version
  end.

Definition getPythonVersion (m : Machine) := runCommand m "python" ["--version"].
Definition getGoVersion (m : Machine) := runCommand m "go" ["version"].
Definition getNodeVersion (m : Machine) := runCommand m "node" ["--version"].
Definition getJavaVersion (m : Machine) := runCommand m "java" ["-version"].
Definition getRubyVersion (m : Machine) := runCommand m "ruby" ["--version"].
Definition getRustVersion (m : Machine) := runCommand m "rustc" ["--version"].
Definition getPHPVersion (m : Machine) := runCommand m "php" ["--version"].

(** The icons are emoji; they are given by their code points. *)
Definition icon_python : string := utf8_of [0x1F40D].
Definition icon_go : string := utf8_of [0x1F7E2].
Definition icon_node : string := utf8_of [0x1F7E8].
Definition icon_java : string := utf8_of [0x2615].
Definition icon_ruby : string := utf8_of [0x1F48E].
Definition icon_rust : string := utf8_of [0x1F980].
Definition icon_php : string := utf8_of [0x1F418].

Definition languages (m : Machine) : list Language :=
  [ languageDetector "Python" icon_python (getPythonVersion m);
    languageDetector "Go" icon_go (getGoVersion m);
    languageDetector "Node.js" icon_node (getNodeVersion m);
    languageDetector "Java" icon_java (getJavaVersion m);
    languageDetector "Ruby" icon_ruby (getRubyVersion m);
    languageDetector "Rust" icon_rust (getRustVersion m);
    languageDetector "PHP" icon_php (getPHPVersion m) ].

(** The filtering loop: [installedLanguages] starts empty and grows by
    [append]. *)
Fixpoint keep_installed (installedLanguages : list Language)
  (rest : list Language) : list Language :=
  match rest with
  | [] => installedLanguages
  | lang :: rest' =>
    if Version lang =? "" then keep_installed installedLanguages rest'
    else keep_installed (installedLanguages ++ [lang]) rest'
  end.

Definition GetProgrammingLanguages (m : Machine) : list Language :=
  keep_installed [] (languages m).

(* ===================================================================== *)
(** * [int], [float64] and the [fmt] verbs the program uses *)
(* ===================================================================== *)

Local Open Scope Z_scope.

Definition min_int : Z := - 2 ^ 63.
Definition max_int : Z := 2 ^ 63 - 1.

(** Two's-complement wrap-around of [int] arithmetic. *)
Definition wrap_int (z : Z) : Z := (z + 2 ^ 63) mod 2 ^ 64 - 2 ^ 63.

Definition int_sub (a b : Z) : Z := wrap_int (a - b).

Module float64.

Definition prec : Z := 53.
Definition emax : Z := 1024.

Definition t : Type := spec_float.

(** The conversion [float64(n)] of an unsigned integer, and the value of
    an integer constant used as a [float64]: round to nearest, ties to
    even. *)
Definition of_int (n : Z) : t := binary_normalize prec emax n 0 false.

Definition div (x y : t) : t := SFdiv prec emax x y.

(** The nearest integer to [num / den] for [0 <= num] and [0 < den],
    a tie going to the even one. *)
Definition round_half_even (num den : Z) : Z :=
  let q := num / den in
  let r := num mod den in
  match 2 * r ?= den with
  | Lt => q
  | Gt => q + 1
  | Eq => if Z.even q then q else q + 1
  end.

(** [m * 2^e * 10^digits], rounded to an integer that way. *)
Definition scaled (m : positive) (e : Z) (digits : nat) : Z :=
  let n := Z.pos m * 10 ^ Z.of_nat digits in
  if 0 <=? e then n * 2 ^ e else round_half_even n (2 ^ (- e)).

Definition itoa (n : Z) : string := NilZero.string_of_int (Z.to_int n).

(** The decimal digits of [n], padded with zeros on the left to [width]
    digits. *)
Definition zero_padded (width : nat) (n : Z) : string :=
  let d := itoa n in
  strings.Repeat "0" (width - length d) ++ d.

(** [strconv.FormatFloat(x, 'f', digits, 64)]: the exact value of [x]
    rounded to [digits] decimals. *)
Definition FormatFloat_f (x : t) (digits : nat) : string :=
  let fixed (s : bool) (n : Z) :=
    (if s then "-" else "")
    ++ itoa (n / 10 ^ Z.of_nat digits)
    ++ (if (digits =? 0)%nat then ""
        else "." ++ zero_padded digits (n mod 10 ^ Z.of_nat digits)) in
  match x with
  | S754_nan => "NaN"
  | S754_infinity s => if s then "-Inf" else "+Inf"
  | S754_zero s => fixed s 0
  | S754_finite s m e => fixed s (scaled m e digits)
  end.

End float64.

Module fmt.

(** [%d] of an integer. *)
Definition verb_d (n : Z) : string := float64.itoa n.

(** [%.2f] of a [float64]. *)
Definition verb_2f (x : float64.t) : string := float64.FormatFloat_f x 2.

(** [fmt.Errorf(prefix + "%v", err)]: errors are their messages. *)
Definition Errorf (prefix err : string) : string := prefix ++ err.

End fmt.

(* ===================================================================== *)
(** * The process: standard output, the colour switch, panics, exit *)
(* ===================================================================== *)

Local Open Scope string_scope.

(** The mutable state of a run: the package variable [color.NoColor] and
    what has been written to standard output, one entry per print
    call. *)
Record World := mkWorld {
  NoColor : bool;
  stdout : list string
}.

(** How a computation ends: it returns, it panics, or it calls
    [os.Exit]. *)
Inductive Run (A : Type) : Type :=
| Done (a : A) (w : World)
| Panic (msg : string) (w : World)
| Exited (code : Z) (w : World).

Arguments Done {A} a w.
Arguments Panic {A} msg w.
Arguments Exited {A} code w.

Definition M (A : Type) : Type := World -> Run A.

Definition ret {A} (a : A) : M A := fun w => Done a w.

Definition bind {A B} (c : M A) (k : A -> M B) : M B :=
  fun w =>
    match c w with
    | Done a w' => k a w'
    | Panic msg w' => Panic msg w'
    | Exited code w' => Exited code w'
    end.

Declare Scope go_scope.
Delimit Scope go_scope with go.
Notation "x <- c ;; k" := (bind c (fun x => k))
  (at level 61, c at next level, right associativity) : go_scope.
Notation "c ;; k" := (bind c (fun _ => k))
  (at level 61, right associativity) : go_scope.

Definition panic {A} (msg : string) : M A := fun w => Panic msg w.

Definition os_Exit {A} (code : Z) : M A := fun w => Exited code w.

Definition print (s : string) : M unit :=
  fun w => Done tt {| NoColor := NoColor w; stdout := stdout w ++ [s] |}.

Definition set_NoColor (b : bool) : M unit :=
  fun w => Done tt {| NoColor := b; stdout := stdout w |}.

Definition get_NoColor : M bool := fun w => Done (NoColor w) w.

(** [for _, x := range l { body }] *)
Fixpoint for_each {A} (l : list A) (body : A -> M unit) : M unit :=
  match l with
  | [] => ret tt
  | x :: rest => bind (body x) (fun _ => for_each rest body)
  end.

(** The world a run ends in, and the status the process ends with:
    0 after a normal return, the argument of [os.Exit], 2 after a
    panic. *)
Definition final_world {A} (r : Run A) : World :=
  match r with
  | Done _ w | Panic _ w | Exited _ w => w
  end.

Definition exit_status {A} (r : Run A) : Z :=
  match r with
  | Done _ _ => 0%Z
  | Exited code _ => code
  | Panic _ _ => 2%Z
  end.

(* ===================================================================== *)
(** * Package [color] (github.com/fatih/color) *)
(* ===================================================================== *)

Module color.

Definition Bold : Z := 1.
Definition FgWhite : Z := 37.
Definition FgHiBlack : Z := 90.
Definition FgHiGreen : Z := 92.
Definition FgHiBlue : Z := 94.

Record Color := New { params : list Z }.

Fixpoint sequence (ps : list Z) : string :=
  match ps with
  | [] => ""
  | [p] => fmt.verb_d p
  | p :: rest => fmt.verb_d p ++ ";" ++ sequence rest
  end.

(** The SGR sequence that switches the attributes on. *)
Definition format (c : Color) : string :=
  str escape ++ "[" ++ sequence (params c) ++ "m".

(** What [Unset] writes: the sequence of the attribute [Reset], 0. *)
Definition reset : string := str escape ++ "[0m".

(** The sequence [wrap] puts after the text.  It is the sequence of
    [Reset] in the releases of the library before 1.16.0; from that
    release on it resets attribute by attribute (0;22 after a bold
    colour), and the sources do not fix the release.  Of this sequence
    the properties below use only that it is one escape sequence, from
    the escape byte to its [m]: none depends on its length. *)
Definition unformat (c : Color) : string := reset.

Definition wrap (c : Color) (s : string) : string :=
  format c ++ s ++ unformat c.

(** [c.Sprint(s)]: the text alone when [NoColor] is set. *)
Definition Sprint (c : Color) (s : string) : M string :=
  fun w => Done (if NoColor w then s else wrap c s) w.

Definition FgRed : Z := 31.
Definition FgGreen : Z := 32.
Definition FgBlue : Z := 34.

(** [c.Print(s)]: [Set] writes the sequence, the text follows, and
    [Unset] writes the reset; the text alone when [NoColor] is set. *)
Definition Print (c : Color) (s : string) : M unit :=
  fun w =>
    if NoColor w then print s w
    else bind (print (format c))
              (fun _ => bind (print s) (fun _ => print reset)) w.

(** [color.Green(format)] and its likes, called without further
    arguments: a line end is added to the text unless it has one, and
    the text is printed as it is. *)
Definition colorPrint (format : string) (p : Z) : M unit :=
  let format :=
    if strings.HasSuffix format (str newline) then format
    else format ++ str newline in
  Print (New [p]) format.

Definition Green (format : string) : M unit := colorPrint format FgGreen.
Definition Blue (format : string) : M unit := colorPrint format FgBlue.
Definition Red (format : string) : M unit := colorPrint format FgRed.
Definition White (format : string) : M unit := colorPrint format FgWhite.

End color.

(* ===================================================================== *)
(** * Package [utils] *)
(* ===================================================================== *)

Module utils.

Definition Green : string := "green".
Definition Blue : string := "blue".
Definition Red : string := "red".

Definition PrintColored (text colorType : string) : M unit :=
  if colorType =? Green then color.Green text
  else if colorType =? Blue then color.Blue text
  else if colorType =? Red then color.Red text
  else color.White text.

End utils.

(* ===================================================================== *)
(** * Host metrics (github.com/shirou/gopsutil) *)
(* ===================================================================== *)

Module host.
Record InfoStat := mkInfoStat {
  Hostname : string;
  Uptime : Z;
  Platform : string;
  PlatformVersion : string;
  KernelVersion : string
}.
End host.

Module cpu.
Record InfoStat := mkInfoStat { ModelName : string }.
End cpu.

Module mem.
Record VirtualMemoryStat := mkStat { Total : Z }.
End mem.

Module disk.
Record UsageStat := mkStat { Total : Z }.
End disk.

Module net.
Record IOCountersStat := mkStat { BytesSent : Z; BytesRecv : Z }.
End net.

(** The answers of the host to the six queries of a run: each is a value
    and an error, [None] for [nil].  The counters are [uint64]. *)
Record Host := mkHost {
  host_Info : host.InfoStat * option string;
  cpu_Info : list cpu.InfoStat * option string;
  cpu_Counts : bool -> Z * option string;
  mem_VirtualMemory : mem.VirtualMemoryStat * option string;
  disk_Usage : string -> disk.UsageStat * option string;
  net_IOCounters : bool -> list net.IOCountersStat * option string
}.

(* ===================================================================== *)
(** * Collection and rendering of the report *)
(* ===================================================================== *)

Module report.

Record SystemInfo := mkSystemInfo {
  Platform : string;
  Kernel : string;
  Hostname : string;
  CPU : string;
  Memory : float64.t;
  Disk : float64.t;
  Uptime : float64.t;
  NetworkSent : float64.t;
  NetworkRecv : float64.t
}.

(** [v, err := q; if err != nil { return nil, fmt.Errorf(prefix, err) }] *)
Notation "'query' v <- q 'or' prefix ;; k" :=
  (match q with
   | (v, None) => k
   | (_, Some err) => ret (None, Some (fmt.Errorf prefix err))
   end)
  (at level 61, v name, q at next level, prefix at next level,
   right associativity) : go_scope.

Local Open Scope go_scope.

Definition index_panic : string :=
  "runtime error: index out of range [0] with length 0".

(** [collectSystemInfo]: the pointer to the [SystemInfo] and the error,
    each [None] for [nil]. *)
Definition collectSystemInfo (h : Host)
  : M (option SystemInfo * option string) :=
  query hostInfo <- host_Info h or "failed to get host info: " ;;
  query cpuInfo <- cpu_Info h or "failed to get CPU info: " ;;
  query cpuCount <- cpu_Counts h true or "failed to get CPU count: " ;;
  query memInfo <- mem_VirtualMemory h or "failed to get memory info: " ;;
  query diskInfo <- disk_Usage h "/" or "failed to get disk info: " ;;
  query netInfo <- net_IOCounters h false or "failed to get network info: " ;;
  match cpuInfo with
  | [] => panic index_panic
  | cpu0 :: _ =>
    match netInfo with
    | [] => panic index_panic
    | net0 :: _ =>
      ret (Some {|
        Platform := host.Platform hostInfo ++ " "
                    ++ host.PlatformVersion hostInfo;
        Kernel := host.KernelVersion hostInfo;
        Hostname := host.Hostname hostInfo;
        CPU := cpu.ModelName cpu0 ++ " (" ++ fmt.verb_d cpuCount ++ " cores)";
        Memory := float64.div (float64.of_int (mem.Total memInfo))
                              (float64.of_int (2 ^ 30));
        Disk := float64.div (float64.of_int (disk.Total diskInfo))
                            (float64.of_int (2 ^ 30));
        Uptime := float64.div (float64.of_int (host.Uptime hostInfo))
                              (float64.of_int 3600);
        NetworkSent := float64.div (float64.of_int (net.BytesSent net0))
                                   (float64.of_int (2 ^ 20));
        NetworkRecv := float64.div (float64.of_int (net.BytesRecv net0))
                                   (float64.of_int (2 ^ 20))
      |}, None)
    end
  end.

Record colorSchemes := mkSchemes {
  header : color.Color;
  section : color.Color;
  value : color.Color;
  border : color.Color
}.

Definition createColorSchemes : colorSchemes :=
  {| header := color.New [color.FgHiGreen; color.Bold];
     section := color.New [color.FgHiBlue; color.Bold];
     value := color.New [color.FgWhite];
     border := color.New [color.FgHiBlack; color.Bold] |}.

Definition getDisplayWidth (s : string) : Z := utf8.RuneCountInString s.

Definition getPadding (content : string) (totalWidth : Z) : string :=
  let displayWidth := getDisplayWidth content in
  let paddingWidth := int_sub totalWidth displayWidth in
  let paddingWidth := if (paddingWidth <? 0)%Z then 0%Z else paddingWidth in
  strings.Repeat " " (Z.to_nat paddingWidth).

(** [centerText]: [None] stands for the panic of [strings.Repeat] on a
    negative count.  The quotient of [int]s truncates towards zero. *)
Definition centerText (text : string) (width : Z) : option string :=
  let displayWidth := getDisplayWidth text in
  if (width <=? displayWidth)%Z then Some text
  else
    let padding := int_sub width displayWidth in
    let leftPad := wrap_int (Z.quot padding 2) in
    let rightPad := int_sub padding leftPad in
    match strings.Repeat_int " " leftPad, strings.Repeat_int " " rightPad with
    | Some lpad, Some rpad => Some (lpad ++ text ++ rpad)
    | _, _ => None
    end.

(** The [value interface{}] of a metric holds a string or a float64. *)
Inductive metric_value :=
| VString (s : string)
| VFloat (x : float64.t).

Record metric := mkMetric {
  icon : string;
  name : string;
  mvalue : metric_value;
  unit_ : string
}.

Definition arrow_up : string := utf8_of [0x2191].
Definition arrow_down : string := utf8_of [0x2193].

Definition metrics (info : SystemInfo) : list metric :=
  [ mkMetric (utf8_of [0xF17C]) "Platform" (VString (Platform info)) "";
    mkMetric (utf8_of [0xE70F]) "Kernel" (VString (Kernel info)) "";
    mkMetric (utf8_of [0xE795]) "Hostname" (VString (Hostname info)) "";
    mkMetric (utf8_of [0xF4BC]) "CPU" (VString (CPU info)) "";
    mkMetric (utf8_of [0xF85A]) "Memory" (VFloat (Memory info)) "GB";
    mkMetric (utf8_of [0xF0A0]) "Disk" (VFloat (Disk info)) "GB";
    mkMetric (utf8_of [0xF43A]) "Uptime" (VFloat (Uptime info)) "hours";
    mkMetric (utf8_of [0xF6FF]) "Network"
      (VString (arrow_up ++ fmt.verb_2f (NetworkSent info) ++ " MB | "
                ++ arrow_down ++ fmt.verb_2f (NetworkRecv info) ++ " MB"))
      "" ].

Definition totalWidth : Z := 58.

Definition valueStr (m : metric) : string :=
  match mvalue m with
  | VFloat v => fmt.verb_2f v ++ " " ++ unit_ m
  | VString s => s
  end.

Definition printSystemDetails (info : SystemInfo) (schemes : colorSchemes)
  : M unit :=
  for_each (metrics info) (fun m =>
    styled_name <- color.Sprint (header schemes) (name m) ;;
    styled_value <- color.Sprint (value schemes) (valueStr m) ;;
    let line := icon m ++ " " ++ styled_name ++ ": " ++ styled_value in
    let padding := getPadding line totalWidth in
    print (" " ++ line ++ padding ++ " " ++ str newline)).

(** [PrintSystemInfo]: the error it returns, [None] for [nil]. *)
Definition PrintSystemInfo (h : Host) (noColor : bool) : M (option string) :=
  set_NoColor noColor ;;
  r <- collectSystemInfo h ;;
  match r with
  | (_, Some err) =>
    ret (Some (fmt.Errorf "failed to collect system information: " err))
  | (None, None) => panic "invalid memory address or nil pointer dereference"
  | (Some info, None) =>
    let schemes := createColorSchemes in
    printSystemDetails info schemes ;;
    ret None
  end.

End report.

(* ===================================================================== *)
(** * Package [ascii] and the command ([cmd/root.go]) *)
(* ===================================================================== *)

(** The file system as the program sees it: [os.ReadFile] and the path
    separator of [filepath.Join]. *)
Record Files := mkFiles {
  ReadFile : string -> string * option string;
  Separator : string
}.

Module ascii_art.

Local Open Scope go_scope.

Definition PrintASCIIArt (fs : Files) (filename : string) : M unit :=
  let path := "ascii" ++ Separator fs ++ "assets" ++ Separator fs
              ++ filename ++ ".txt" in
  match ReadFile fs path with
  | (_, Some err) =>
    print ("Error loading ASCII art: " ++ err ++ str newline)
  | (data, None) => print (data ++ str newline)
  end.

End ascii_art.

Module cmd.

Local Open Scope go_scope.

(** What [rootCmd.Execute()] makes of the command line: an error of the
    command itself (an unknown flag, for one), the help text, or a call
    of [Run] with the two flags set. *)
Inductive Invocation :=
| CommandError (err : string)
| Help (usage : string)
| Invoke (noAscii noColors : bool).

Definition runNeofetch (fs : Files) (h : Host) (noAscii noColors : bool)
  : M unit :=
  (if negb noAscii then ascii_art.PrintASCIIArt fs "default" else ret tt) ;;
  err <- report.PrintSystemInfo h noColors ;;
  match err with
  | Some _ => ret tt
  | None => ret tt
  end.

(** [rootCmd.Execute()]: the error it returns. *)
Definition rootCmd_Execute (fs : Files) (h : Host) (inv : Invocation)
  : M (option string) :=
  match inv with
  | CommandError err => ret (Some err)
  | Help usage => print usage ;; ret None
  | Invoke noAscii noColors => runNeofetch fs h noAscii noColors ;; ret None
  end.

Definition Execute (fs : Files) (h : Host) (inv : Invocation) : M unit :=
  err <- rootCmd_Execute fs h inv ;;
  match err with
  | Some e => print (e ++ str newline) ;; os_Exit 1%Z
  | None => ret tt
  end.

End cmd.

(* ===================================================================== *)
(** * Notions used to state the properties *)
(* ===================================================================== *)

Local Open Scope string_scope.

(** The byte [c] occurs in [s]; how often it does. *)
Fixpoint occurs (c : ascii) (s : string) : bool :=
  match s with
  | "" => false
  | String b rest => Ascii.eqb c b || occurs c rest
  end.

Fixpoint count_byte (c : ascii) (s : string) : nat :=
  match s with
  | "" => O
  | String b rest => ((if Ascii.eqb c b then 1 else 0) + count_byte c rest)%nat
  end.

(** A configured probe: the name and icon of the entry, the command and
    its arguments. *)
Record ToolSpec := mkTool {
  tool_name : string;
  tool_icon : string;
  tool_command : string;
  tool_args : list string
}.

Definition tool_specs : list ToolSpec :=
  [ mkTool "Python" icon_python "python" ["--version"];
    mkTool "Go" icon_go "go" ["version"];
    mkTool "Node.js" icon_node "node" ["--version"];
    mkTool "Java" icon_java "java" ["-version"];
    mkTool "Ruby" icon_ruby "ruby" ["--version"];
    mkTool "Rust" icon_rust "rustc" ["--version"];
    mkTool "PHP" icon_php "php" ["--version"] ].

(** The version extracted for a probe, and the entry made of it. *)
Definition extracted (m : Machine) (t : ToolSpec) : string :=
  runCommand m (tool_command t) (tool_args t).

Definition entry_of (m : Machine) (t : ToolSpec) : Language :=
  {| Icon := tool_icon t; Name := tool_name t; Version := extracted m t |}.

(** The probe of [t] fails on [m]: the command cannot be started or the
    child exits with a non-zero status, so [CombinedOutput] returns an
    error. *)
Definition probe_fails (m : Machine) (command : string) (args : list string)
  : Prop :=
  exec_err (CombinedOutput m (fst (probe_command m command args))
                             (snd (probe_command m command args))) <> None.

(** The commands for which [processVersionString] has a rule. *)
Definition has_rule (command : string) : bool :=
  is_command command ["python"; "ruby"; "go"; "rustc"; "node"; "java"; "php"].


(** ** Sample inputs *)

(** A machine on which no probe can be started, and one with PHP and
    Python installed. *)
Definition machine_bare : Machine :=
  mkMachine "linux" (fun _ _ => mkExec "" (Some "executable file not found")).

Definition machine_php_python : Machine :=
  mkMachine "linux" (fun c _ =>
    if c =? "php" then mkExec ("PHP 8.1.2 (cli)" ++ str newline) None
    else if c =? "python" then mkExec ("Python 3.11.4" ++ str newline) None
    else mkExec "" (Some "executable file not found")).

Definition php_tool : ToolSpec := mkTool "PHP" icon_php "php" ["--version"].

Definition java_sample : string :=
  "openjdk version " ++ String dquote ("17.0.2" ++ String dquote " 2022-01-18").

(** A [java] output whose line has one double quote only. *)
Definition java_one_quote : string := "openjdk version " ++ String dquote "17".


(** A [java] output that ends with its only double quote. *)
Definition java_open_quote : string := "openjdk version " ++ str dquote.

(** ** Outputs whose shape no rule matches

    [unmatched java_rule command version]: fewer than two fields for
    python, ruby, go and rustc; [java_rule] of the lines for java; an
    empty output for php; or a command without a rule.  For java the
    words of the specification are "no line containing the word, or no
    pair of double quotes on such a line" ([no_quote_pair]); the loop of
    the code passes over a line when it holds no double quote at all
    ([no_quote]). *)
Definition no_quote_pair (lines : list string) : bool :=
  forallb (fun line => negb (strings.Contains line "version")
                       || (count_byte dquote line <? 2)%nat) lines.

Definition no_quote (lines : list string) : bool :=
  forallb (fun line => negb (strings.Contains line "version")
                       || negb (occurs dquote line)) lines.

Definition unmatched (java_rule : list string -> bool)
  (command version : string) : bool :=
  (is_command command ["python"; "ruby"; "go"; "rustc"]
   && (List.length (strings.Fields version) <? 2)%nat)
  || ((command =? "java")
      && java_rule (strings.Split version (str newline)))
  || ((command =? "php") && (version =? ""))
  || negb (has_rule command).

(** The answer of machine [m] to the probe of [t]. *)
Definition probe_result (m : Machine) (t : ToolSpec) : ExecResult :=
  CombinedOutput m
    (fst (probe_command m (tool_command t) (tool_args t)))
    (snd (probe_command m (tool_command t) (tool_args t))).

Definition python_tool : ToolSpec :=
  mkTool "Python" icon_python "python" ["--version"].

(** A machine whose python prints one word only. *)
Definition machine_odd_python : Machine :=
  mkMachine "linux" (fun c _ =>
    if c =? "python" then mkExec ("unknown" ++ str newline) None
    else mkExec "" (Some "executable file not found")).


(** ** Failing host queries *)

Definition some_query_fails (h : Host) : Prop :=
  snd (host_Info h) <> None \/ snd (cpu_Info h) <> None
  \/ snd (cpu_Counts h true) <> None \/ snd (mem_VirtualMemory h) <> None
  \/ snd (disk_Usage h "/") <> None \/ snd (net_IOCounters h false) <> None.

(** [first_failure h label e]: in the order of the calls, the query
    called [label] is the first to return an error, and that error is
    [e]. *)
Inductive first_failure (h : Host) : string -> string -> Prop :=
| fails_host e :
    snd (host_Info h) = Some e -> first_failure h "host info" e
| fails_cpu_info e :
    snd (host_Info h) = None -> snd (cpu_Info h) = Some e ->
    first_failure h "CPU info" e
| fails_cpu_count e :
    snd (host_Info h) = None -> snd (cpu_Info h) = None ->
    snd (cpu_Counts h true) = Some e -> first_failure h "CPU count" e
| fails_memory e :
    snd (host_Info h) = None -> snd (cpu_Info h) = None ->
    snd (cpu_Counts h true) = None -> snd (mem_VirtualMemory h) = Some e ->
    first_failure h "memory info" e
| fails_disk e :
    snd (host_Info h) = None -> snd (cpu_Info h) = None ->
    snd (cpu_Counts h true) = None -> snd (mem_VirtualMemory h) = None ->
    snd (disk_Usage h "/") = Some e -> first_failure h "disk info" e
| fails_network e :
    snd (host_Info h) = None -> snd (cpu_Info h) = None ->
    snd (cpu_Counts h true) = None -> snd (mem_VirtualMemory h) = None ->
    snd (disk_Usage h "/") = None -> snd (net_IOCounters h false) = Some e ->
    first_failure h "network info" e.

(** A host that answers every query: 1 GiB of memory, an empty disk,
    an uptime of [uptime] seconds. *)
Definition host_up (uptime : Z) : Host :=
  mkHost (host.mkInfoStat "box" uptime "ubuntu" "22.04" "6.1.0", None)
         ([cpu.mkInfoStat "Ryzen 7"], None)
         (fun _ => (8%Z, None))
         (mem.mkStat 1073741824, None)
         (fun _ => (disk.mkStat 0, None))
         (fun _ => ([net.mkStat 1048576 3145728], None)).

(** The same host when the disk and the network queries fail. *)
Definition host_disk_fails : Host :=
  mkHost (host.mkInfoStat "box" 3600 "ubuntu" "22.04" "6.1.0", None)
         ([cpu.mkInfoStat "Ryzen 7"], None)
         (fun _ => (8%Z, None))
         (mem.mkStat 1073741824, None)
         (fun _ => (disk.mkStat 0, Some "permission denied"))
         (fun _ => ([], Some "not implemented yet")).

(** A host whose CPU query succeeds with an empty list, as it does
    where the processor table cannot be read. *)
Definition host_no_cpu : Host :=
  mkHost (host.mkInfoStat "box" 3600 "ubuntu" "22.04" "6.1.0", None)
         ([], None)
         (fun _ => (8%Z, None))
         (mem.mkStat 1073741824, None)
         (fun _ => (disk.mkStat 0, None))
         (fun _ => ([net.mkStat 1048576 3145728], None)).

Definition files_none : Files :=
  mkFiles (fun _ => ("", Some "open ascii/assets/default.txt: no such file"))
          "/".

Definition world0 : World := mkWorld false [].


(** ** What the report shows *)

(** The line [printSystemDetails] prints for a metric, with the colour
    switch off ([noColor = true]) or on. *)
Definition render_line (noColor : bool) (m : report.metric) : string :=
  let styled c s := if noColor then s else color.wrap c s in
  let line :=
    report.icon m ++ " "
    ++ styled (report.header report.createColorSchemes) (report.name m)
    ++ ": "
    ++ styled (report.value report.createColorSchemes) (report.valueStr m) in
  " " ++ line ++ report.getPadding line report.totalWidth ++ " "
  ++ str newline.

(** The value shown for the metric called [n]. *)
Definition shown (info : report.SystemInfo) (n : string) : option string :=
  option_map report.valueStr
    (find (fun m => report.name m =? n) (report.metrics info)).

Definition GiB : Z := 2 ^ 30.


(** The [SystemInfo] collected on [host_up 5400]. *)
Definition info_up : report.SystemInfo :=
  {| report.Platform := "ubuntu 22.04";
     report.Kernel := "6.1.0";
     report.Hostname := "box";
     report.CPU := "Ryzen 7 (8 cores)";
     report.Memory :=
       float64.div (float64.of_int 1073741824) (float64.of_int (2 ^ 30));
     report.Disk := float64.div (float64.of_int 0) (float64.of_int (2 ^ 30));
     report.Uptime := float64.div (float64.of_int 5400) (float64.of_int 3600);
     report.NetworkSent :=
       float64.div (float64.of_int 1048576) (float64.of_int (2 ^ 20));
     report.NetworkRecv :=
       float64.div (float64.of_int 3145728) (float64.of_int (2 ^ 20)) |}.

(** ** Style markers

    [strip_sgr false s] is [s] without its escape sequences: from an
    escape byte up to the [m] that ends the sequence.  A text is free of
    markers when the escape byte does not occur in it. *)
Fixpoint strip_sgr (inside : bool) (s : string) : string :=
  match s with
  | "" => ""
  | String c rest =>
    if inside then strip_sgr (negb (Ascii.eqb c "m")) rest
    else if Ascii.eqb c escape then strip_sgr true rest
    else String c (strip_sgr false rest)
  end.

Definition escape_free (s : string) : Prop := occurs escape s = false.

Definition clean_info (info : report.SystemInfo) : Prop :=
  escape_free (report.Platform info) /\ escape_free (report.Kernel info)
  /\ escape_free (report.Hostname info) /\ escape_free (report.CPU info).

(** [shows m line]: the line is the icon, the label and the value of
    [m], as text, followed by padding. *)
Definition shows (m : report.metric) (line : string) : Prop :=
  exists k : nat,
    line = " " ++ (report.icon m ++ " " ++ report.name m ++ ": "
                   ++ report.valueStr m)
           ++ strings.Repeat " " k ++ " " ++ str newline.


(** A metric whose icon, label and value are free of markers. *)
Definition clean_metric (m : report.metric) : Prop :=
  escape_free (report.icon m) /\ escape_free (report.name m)
  /\ escape_free (report.valueStr m).


(** ** Notions for the further properties *)

(** [ascii_led t]: [t] is empty or starts with an ASCII byte. *)
Definition ascii_led (t : string) : Prop :=
  match t with
  | "" => True
  | String c _ => (byte_val c < 128)%Z
  end.


(** [ascii_only a]: every byte of [a] is an ASCII byte. *)
Fixpoint ascii_only (a : string) : bool :=
  match a with
  | "" => true
  | String c rest => (byte_val c <? 128)%Z && ascii_only rest
  end.


(** The text of a metric: icon, label and value. *)
Definition metric_text (m : report.metric) : string :=
  report.icon m ++ " " ++ report.name m ++ ": " ++ report.valueStr m.

(** The width of the text of every metric is an [int], as the length
    of a Go string is. *)
Definition fits_int (info : report.SystemInfo) : Prop :=
  Forall (fun m => (utf8.RuneCountInString (metric_text m) <= max_int)%Z)
         (report.metrics info).


(** What [PrintASCIIArt] writes for the file called [filename]: the art
    and a line end, or a message when the file cannot be read. *)
Definition art_entry (fs : Files) (filename : string) : string :=
  match ReadFile fs ("ascii" ++ Separator fs ++ "assets" ++ Separator fs
                     ++ filename ++ ".txt") with
  | (_, Some err) => "Error loading ASCII art: " ++ err ++ str newline
  | (data, None) => data ++ str newline
  end.


(** [visible a]: every byte of [a] is an ASCII byte that is not white
    space; a word is a non-empty such string. *)
Fixpoint visible (a : string) : bool :=
  match a with
  | "" => true
  | String c rest =>
    (byte_val c <? 128)%Z && negb (unicode.IsSpace (byte_val c))
    && visible rest
  end.

Definition word (a : string) : Prop := a <> "" /\ visible a = true.

(** [ends_field rest]: [rest] is empty or starts with a space. *)
Definition ends_field (rest : string) : Prop :=
  rest = "" \/ exists rest', rest = String space rest'.


(** A machine whose python runs and prints an empty line. *)
Definition machine_blank_python : Machine :=
  mkMachine "linux" (fun c _ =>
    if c =? "python" then mkExec (" " ++ str newline) None
    else mkExec "" (Some "executable file not found")).


(** The text [colorPrint] writes: a line end is added unless the text
    has one. *)
Definition with_line_end (text : string) : string :=
  if strings.HasSuffix text (str newline) then text
  else text ++ str newline.

(** The attribute [PrintColored] uses for a colour name. *)
Definition attribute_of (colorType : string) : Z :=
  if colorType =? "green" then 32%Z
  else if colorType =? "blue" then 34%Z
  else if colorType =? "red" then 31%Z
  else 37%Z.

Fixpoint concat_strings (l : list string) : string :=
  match l with
  | [] => ""
  | s :: rest => s ++ concat_strings rest
  end.


(** ** Exact quotients and two decimals *)

(** [exact_quotient x num den]: the float [x] is the number
    [num / den], without any rounding. *)
Definition exact_quotient (x : float64.t) (num den : Z) : Prop :=
  match x with
  | S754_zero false => num = 0%Z
  | S754_finite false m e =>
    (e <= 0)%Z /\ (Z.pos m * den = num * 2 ^ (- e))%Z
  | _ => False
  end.

(** The decimal writing of [n / 100] with two decimals, for [0 <= n]. *)
Definition two_decimals (n : Z) : string :=
  float64.itoa (n / 100) ++ "." ++ float64.zero_padded 2 (n mod 100).


Definition MiB : Z := 2 ^ 20.

(** The hundredths shown for [n] units of [1/den]. *)
Definition hundredths (n den : Z) : Z :=
  float64.round_half_even (100 * n) den.


(** The strings the host reports hold no escape byte. *)
Definition clean_host (h : Host) : Prop :=
  escape_free (host.Platform (fst (host_Info h)))
  /\ escape_free (host.PlatformVersion (fst (host_Info h)))
  /\ escape_free (host.KernelVersion (fst (host_Info h)))
  /\ escape_free (host.Hostname (fst (host_Info h)))
  /\ Forall (fun c => escape_free (cpu.ModelName c)) (fst (cpu_Info h)).


(** [blank ws]: every byte of [ws] is ASCII white space. *)
Fixpoint blank (ws : string) : bool :=
  match ws with
  | "" => true
  | String c rest =>
    (byte_val c <? 128)%Z && unicode.IsSpace (byte_val c) && blank rest
  end.

(** The runes of a string of ASCII bytes: one for each byte. *)
Fixpoint ascii_runes (a : string) : list (Z * string) :=
  match a with
  | "" => []
  | String c rest => (byte_val c, str c) :: ascii_runes rest
  end.

(** [more_words rest]: after the second word comes nothing, or a space
    and ASCII text that ends with a word. *)
Definition more_words (rest : string) : Prop :=
  rest = ""
  \/ exists x w, rest = String space (x ++ w)
                 /\ ascii_only x = true /\ word w.

(** A machine on which rustc is installed. *)
Definition machine_rust : Machine :=
  mkMachine "linux" (fun c _ =>
    if c =? "rustc"
    then mkExec ("rustc 1.70.0 (90c541806 2023-05-31)" ++ str newline) None
    else mkExec "" (Some "executable file not found")).

Definition rust_tool : ToolSpec :=
  mkTool "Rust" icon_rust "rustc" ["--version"].

(** [spaces n]: the string of [n] spaces, written without
    [strings.Repeat]. *)
Fixpoint spaces (n : nat) : string :=
  match n with
  | O => ""
  | S k => String space (spaces k)
  end.

(* ===================================================================== *)
(** * Properties of the toolchain detection *)
(* ===================================================================== *)

Section Splitting.

Variable q : ascii.

Lemma rev_string_onto (a cur t : string) :
  strings.rev_string t (strings.rev_string cur a)
  = strings.rev_string (a ++ t) cur.
Proof.
  revert cur t. induction a as [|c a IH]; intros cur t; simpl.
  - reflexivity.
  - rewrite IH. reflexivity.
Qed.

Lemma append_empty_r (s : string) : s ++ "" = s.
Proof. induction s; simpl; congruence. Qed.

Lemma rev_string_twice (a : string) :
  strings.rev_string "" (strings.rev_string "" a) = a.
Proof. rewrite rev_string_onto. simpl. apply append_empty_r. Qed.

Lemma prefix_byte (c : ascii) (rest : string) :
  prefix (str q) (String c rest) = Ascii.eqb q c.
Proof.
  unfold str. simpl. destruct (ascii_dec q c) as [->|n].
  - rewrite Ascii.eqb_refl. now destruct rest.
  - symmetry. now apply Ascii.eqb_neq.
Qed.

(** Up to the first separator byte, [Split] only collects. *)
Lemma split_until_byte (a r cur : string) :
  occurs q a = false ->
  strings.split_from (str q) 0 cur (a ++ String q r)
  = strings.rev_string "" (strings.rev_string cur a)
    :: strings.split_from (str q) 0 "" r.
Proof.
  revert cur. induction a as [|c a IH]; intros cur Ha.
  - cbn [append strings.split_from]. rewrite prefix_byte, Ascii.eqb_refl.
    reflexivity.
  - simpl in Ha. apply orb_false_elim in Ha as [Hc Ha].
    cbn [append strings.split_from]. rewrite prefix_byte, Hc.
    rewrite IH by assumption. reflexivity.
Qed.

Lemma split_no_byte (a cur : string) :
  occurs q a = false ->
  strings.split_from (str q) 0 cur a
  = [strings.rev_string "" (strings.rev_string cur a)].
Proof.
  revert cur. induction a as [|c a IH]; intros cur Ha.
  - reflexivity.
  - simpl in Ha. apply orb_false_elim in Ha as [Hc Ha].
    cbn [strings.split_from]. rewrite prefix_byte, Hc.
    now rewrite IH.
Qed.

Lemma split_between (a b c : string) :
  occurs q a = false -> occurs q b = false ->
  exists rest,
    strings.Split (a ++ String q (b ++ String q c)) (str q) = a :: b :: rest.
Proof.
  intros Ha Hb. unfold strings.Split.
  rewrite split_until_byte by assumption.
  rewrite split_until_byte by assumption.
  rewrite !rev_string_twice. eauto.
Qed.

Lemma split_whole (a : string) :
  occurs q a = false -> strings.Split a (str q) = [a].
Proof.
  intros Ha. unfold strings.Split. rewrite split_no_byte by assumption.
  now rewrite rev_string_twice.
Qed.

End Splitting.

(** A line without the word or without a quote is passed over. *)
Lemma java_scan_skip (pre rest : list string) :
  (forall l, In l pre ->
     strings.Contains l "version" = false \/ occurs dquote l = false) ->
  java_scan (pre ++ rest) = java_scan rest.
Proof.
  induction pre as [|l pre IH]; intros H; simpl.
  - reflexivity.
  - destruct (H l (or_introl eq_refl)) as [Hv | Hq].
    + rewrite Hv. apply IH. intros; apply H; now right.
    + rewrite (split_whole dquote l Hq).
      destruct (strings.Contains l "version"); apply IH;
        intros; apply H; now right.
Qed.

Lemma java_scan_none (lines : list string) :
  (forall l, In l lines ->
     strings.Contains l "version" = false \/ occurs dquote l = false) ->
  java_scan lines = None.
Proof.
  intros H. rewrite <- (app_nil_r lines). now rewrite java_scan_skip.
Qed.

Lemma keep_installed_filter (acc l : list Language) :
  keep_installed acc l
  = (acc ++ filter (fun x => negb (Version x =? "")) l)%list.
Proof.
  revert acc. induction l as [|x l IH]; intros acc; simpl.
  - now rewrite app_nil_r.
  - destruct (Version x =? ""); simpl.
    + apply IH.
    + rewrite IH, <- app_assoc. reflexivity.
Qed.

Lemma languages_specs (m : Machine) :
  languages m = map (entry_of m) tool_specs.
Proof. reflexivity. Qed.

Lemma filter_map_comm {A B} (f : A -> B) (p : B -> bool) (l : list A) :
  filter p (map f l) = map f (filter (fun x => p (f x)) l).
Proof.
  induction l as [|x l IH]; simpl; [reflexivity|].
  destruct (p (f x)); simpl; now rewrite IH.
Qed.

Lemma detected_entries (m : Machine) :
  GetProgrammingLanguages m
  = map (entry_of m)
        (filter (fun t => negb (extracted m t =? "")) tool_specs).
Proof.
  unfold GetProgrammingLanguages. rewrite keep_installed_filter.
  rewrite languages_specs, filter_map_comm. reflexivity.
Qed.

(** C2 (the code at the input of the claim): for the trimmed output
    "PHP 8.1.2 (cli)" the [php] rule takes the first white-space
    separated field, which is the word "PHP" and not the version
    "8.1.2". *)
Theorem php_rule_returns_the_name :
  strings.Fields "PHP 8.1.2 (cli)" = ["PHP"; "8.1.2"; "(cli)"]
  /\ processVersionString "php" "PHP 8.1.2 (cli)" = "PHP"
  /\ (processVersionString "php" "PHP 8.1.2 (cli)" =? "8.1.2") = false
  /\ Version (last (GetProgrammingLanguages machine_php_python)
                   (mkLanguage "" "" ""))
     = "PHP".
Proof. repeat split; vm_compute; reflexivity. Qed.

(** C3: a configured probe that cannot be started, or whose child exits
    with a non-zero status, makes [runCommand] return the empty string,
    and no entry of that name is in the list [GetProgrammingLanguages]
    returns; both are plain values, no error reaches the caller. *)
Theorem failed_probe_is_a_negative_detection (m : Machine) (t : ToolSpec) :
  In t tool_specs ->
  probe_fails m (tool_command t) (tool_args t) ->
  runCommand m (tool_command t) (tool_args t) = ""
  /\ ~ In (tool_name t) (map Name (GetProgrammingLanguages m)).
Proof.
  intros Ht Hfail.
  assert (Hrun : runCommand m (tool_command t) (tool_args t) = "").
  { unfold runCommand. unfold probe_fails in Hfail.
    destruct (probe_command m (tool_command t) (tool_args t)) as [prog argv].
    simpl in Hfail.
    destruct (exec_err (CombinedOutput m prog argv)); [reflexivity|].
    now contradiction Hfail. }
  split; [exact Hrun|].
  rewrite detected_entries, map_map. intros Hin.
  apply in_map_iff in Hin as (t' & Hname & Hin).
  apply filter_In in Hin as [Hin Hne].
  assert (t' = t) as ->.
  { simpl in Ht, Hin.
    repeat (destruct Ht as [<- | Ht]; [|]);
      repeat (destruct Hin as [<- | Hin];
              [first [reflexivity | discriminate Hname]|]);
      contradiction. }
  unfold extracted in Hne. rewrite Hrun in Hne. discriminate.
Qed.

Lemma failed_probe_witness :
  runCommand machine_bare "php" ["--version"] = ""
  /\ ~ In "PHP" (map Name (GetProgrammingLanguages machine_bare)).
Proof.
  apply (failed_probe_is_a_negative_detection machine_bare php_tool).
  - simpl. tauto.
  - unfold probe_fails. simpl. discriminate.
Defined.

(** C4: whatever the probes answer, [GetProgrammingLanguages] returns
    exactly the entries whose extracted version is not empty, in the
    configured order Python, Go, Node.js, Java, Ruby, Rust, PHP; no
    entry with an empty version is in the result. *)
Theorem detected_languages_are_the_nonempty_ones_in_order (m : Machine) :
  GetProgrammingLanguages m
  = map (entry_of m)
        (filter (fun t => negb (extracted m t =? "")) tool_specs)
  /\ map tool_name tool_specs
     = ["Python"; "Go"; "Node.js"; "Java"; "Ruby"; "Rust"; "PHP"]
  /\ Forall (fun l => Version l <> "") (GetProgrammingLanguages m).
Proof.
  split; [apply detected_entries|]. split; [reflexivity|].
  rewrite detected_entries. apply Forall_forall. intros l Hl.
  apply in_map_iff in Hl as (t & <- & Ht).
  apply filter_In in Ht as [_ Hne]. simpl.
  destruct (extracted m t =? "") eqn:E; [discriminate|].
  now apply String.eqb_neq.
Qed.

Lemma runCommand_success (m : Machine) (t : ToolSpec) :
  exec_err (probe_result m t) = None ->
  extracted m t
  = processVersionString (tool_command t)
      (strings.TrimSpace (exec_output (probe_result m t))).
Proof.
  unfold extracted, runCommand, probe_result.
  destruct (probe_command m (tool_command t) (tool_args t)) as [prog argv].
  simpl. intros ->. reflexivity.
Qed.

Lemma no_quote_scan (lines : list string) :
  no_quote lines = true -> java_scan lines = None.
Proof.
  intros H. apply java_scan_none. intros l Hl.
  unfold no_quote in H. rewrite forallb_forall in H.
  specialize (H l Hl). apply orb_true_iff in H as [H | H].
  - left. now apply negb_true_iff.
  - right. now apply negb_true_iff.
Qed.

Lemma is_command_sub (command : string) :
  has_rule command = false ->
  is_command command ["python"; "ruby"; "go"; "rustc"] = false
  /\ (command =? "node") = false /\ (command =? "java") = false
  /\ (command =? "php") = false.
Proof.
  unfold has_rule, is_command. simpl. intros H.
  repeat (apply orb_false_elim in H as [? H]).
  repeat split; try assumption.
  repeat (apply orb_false_intro; try assumption); reflexivity.
Qed.

Lemma unmatched_returned (command version : string) :
  unmatched no_quote command version = true ->
  processVersionString command version = version.
Proof.
  unfold unmatched. intros H.
  repeat (apply orb_true_iff in H as [H | H]).
  - apply andb_true_iff in H as [Hc Hf]. unfold processVersionString.
    rewrite Hc. apply Nat.ltb_lt in Hf.
    destruct (strings.Fields version) as [|p0 [|p1 ps]]; simpl in Hf;
      try reflexivity; lia.
  - apply andb_true_iff in H as [Hc Hj]. apply String.eqb_eq in Hc. subst.
    unfold processVersionString. simpl.
    now rewrite (no_quote_scan _ Hj).
  - apply andb_true_iff in H as [Hc Hv].
    apply String.eqb_eq in Hc, Hv. subst. reflexivity.
  - apply negb_true_iff in H. apply is_command_sub in H as (H1 & H2 & H3 & H4).
    unfold processVersionString. now rewrite H1, H2, H3, H4.
Qed.

(** C10, as the code has it: when no rule matches the shape of the
    trimmed output (fewer than two fields for python, ruby, go or rustc;
    for java, no double quote on any line that contains "version"; an
    empty output for php; a command without a rule),
    [processVersionString] returns the output unchanged, and such an
    output of a configured probe, when it is not empty, is kept as the
    version of the entry. *)
Theorem unmatched_output_is_kept_unchanged :
  (forall command version,
     unmatched no_quote command version = true ->
     processVersionString command version = version)
  /\ (forall (m : Machine) (t : ToolSpec),
        In t tool_specs ->
        exec_err (probe_result m t) = None ->
        let version := strings.TrimSpace (exec_output (probe_result m t)) in
        unmatched no_quote (tool_command t) version = true ->
        version <> "" ->
        In {| Icon := tool_icon t; Name := tool_name t; Version := version |}
           (GetProgrammingLanguages m)).
Proof.
  split; [exact unmatched_returned|].
  intros m t Ht Hok version Hshape Hne.
  rewrite detected_entries. apply in_map_iff. exists t.
  assert (E : extracted m t = version).
  { rewrite runCommand_success by assumption. now apply unmatched_returned. }
  split.
  - unfold entry_of. now rewrite E.
  - apply filter_In. split; [assumption|].
    rewrite E. apply negb_true_iff. now apply String.eqb_neq.
Qed.

Lemma unmatched_output_witness :
  processVersionString "python" "unknown" = "unknown"
  /\ In {| Icon := icon_python; Name := "Python"; Version := "unknown" |}
        (GetProgrammingLanguages machine_odd_python).
Proof.
  split.
  - apply (proj1 unmatched_output_is_kept_unchanged "python" "unknown").
    vm_compute. reflexivity.
  - apply (proj2 unmatched_output_is_kept_unchanged
             machine_odd_python python_tool).
    + simpl. tauto.
    + reflexivity.
    + vm_compute. reflexivity.
    + vm_compute. discriminate.
Defined.

(** C10, as the claim states it, fails for java: a line that contains
    "version" and a single double quote holds no pair of quotes, yet the
    rule returns what follows the quote, and nothing at all (so that the
    entry is dropped) when the quote ends the line. *)
Lemma java_single_quote_is_not_returned_unchanged :
  unmatched no_quote_pair "java" java_one_quote = true
  /\ processVersionString "java" java_one_quote = "17"
  /\ (processVersionString "java" java_one_quote =? java_one_quote) = false
  /\ unmatched no_quote_pair "java" java_open_quote = true
  /\ processVersionString "java" java_open_quote = "".
Proof. repeat split; vm_compute; reflexivity. Qed.

(** C8: for a java output, the first line that contains the word
    "version" and a double quote decides; when it holds a pair of
    quotes the result is the text between the first two.  The output
    [openjdk version "17.0.2" 2022-01-18] yields 17.0.2. *)
Theorem java_version_is_between_the_first_quotes :
  (forall (version : string) (pre post : list string) (line a b c : string),
     strings.Split version (str newline) = (pre ++ line :: post)%list ->
     (forall l, In l pre ->
        strings.Contains l "version" = false \/ occurs dquote l = false) ->
     strings.Contains line "version" = true ->
     line = a ++ String dquote (b ++ String dquote c) ->
     occurs dquote a = false ->
     occurs dquote b = false ->
     processVersionString "java" version = b)
  /\ processVersionString "java" java_sample = "17.0.2".
Proof.
  split; [|vm_compute; reflexivity].
  intros version pre post line a b c Hsplit Hpre Hword -> Ha Hb.
  unfold processVersionString. simpl. rewrite Hsplit.
  rewrite java_scan_skip by assumption.
  cbn [java_scan]. rewrite Hword.
  destruct (split_between dquote a b c Ha Hb) as [rest ->].
  reflexivity.
Qed.

Lemma java_version_witness :
  processVersionString "java"
    ("Picked up JAVA_TOOL_OPTIONS: -Xmx1g" ++ String newline java_sample)
  = "17.0.2".
Proof.
  apply (proj1 java_version_is_between_the_first_quotes _
           ["Picked up JAVA_TOOL_OPTIONS: -Xmx1g"] []
           java_sample "openjdk version " "17.0.2" " 2022-01-18").
  - vm_compute. reflexivity.
  - intros l [<- | []]. left. vm_compute. reflexivity.
  - vm_compute. reflexivity.
  - reflexivity.
  - reflexivity.
  - reflexivity.
Defined.

(* ===================================================================== *)
(** * Properties of the collection and of the command *)
(* ===================================================================== *)

Lemma some_first_failure (h : Host) :
  some_query_fails h -> exists label e, first_failure h label e.
Proof.
  intros H.
  destruct (snd (host_Info h)) as [e|] eqn:E1; [eauto using first_failure|].
  destruct (snd (cpu_Info h)) as [e|] eqn:E2; [eauto using first_failure|].
  destruct (snd (cpu_Counts h true)) as [e|] eqn:E3;
    [eauto using first_failure|].
  destruct (snd (mem_VirtualMemory h)) as [e|] eqn:E4;
    [eauto using first_failure|].
  destruct (snd (disk_Usage h "/")) as [e|] eqn:E5;
    [eauto using first_failure|].
  destruct (snd (net_IOCounters h false)) as [e|] eqn:E6;
    [eauto using first_failure|].
  unfold some_query_fails in H. tauto.
Qed.

Lemma collect_first_failure (h : Host) (label e : string) (w : World) :
  first_failure h label e ->
  report.collectSystemInfo h w
  = Done (None, Some ("failed to get " ++ label ++ ": " ++ e)) w.
Proof.
  intros H. unfold report.collectSystemInfo.
  destruct H;
    destruct (host_Info h) as [v1 o1], (cpu_Info h) as [v2 o2],
      (cpu_Counts h true) as [v3 o3], (mem_VirtualMemory h) as [v4 o4],
      (disk_Usage h "/") as [v5 o5], (net_IOCounters h false) as [v6 o6];
    simpl in *; subst; reflexivity.
Qed.

(** C1: when one of the host queries fails, [collectSystemInfo] returns
    no [SystemInfo] and one error that names the first failing query and
    wraps its error; [PrintSystemInfo] returns that error, wrapped once
    more, and writes nothing: standard output is as it was, so no value
    of a query that succeeded appears. *)
Theorem failed_query_aborts_the_report
  (h : Host) (noColor : bool) (w : World) :
  some_query_fails h ->
  exists label e,
    first_failure h label e
    /\ report.collectSystemInfo h w
       = Done (None, Some ("failed to get " ++ label ++ ": " ++ e)) w
    /\ report.PrintSystemInfo h noColor w
       = Done (Some ("failed to collect system information: "
                     ++ "failed to get " ++ label ++ ": " ++ e))
              {| NoColor := noColor; stdout := stdout w |}.
Proof.
  intros H. destruct (some_first_failure h H) as (label & e & Hf).
  exists label, e. split; [assumption|]. split.
  - now apply collect_first_failure.
  - unfold report.PrintSystemInfo, bind, set_NoColor.
    rewrite (collect_first_failure h label e _ Hf). reflexivity.
Qed.

Lemma failed_query_witness :
  exists label e,
    first_failure host_disk_fails label e
    /\ report.collectSystemInfo host_disk_fails world0
       = Done (None, Some ("failed to get " ++ label ++ ": " ++ e)) world0
    /\ report.PrintSystemInfo host_disk_fails true world0
       = Done (Some ("failed to collect system information: "
                     ++ "failed to get " ++ label ++ ": " ++ e))
              {| NoColor := true; stdout := stdout world0 |}.
Proof.
  apply (failed_query_aborts_the_report host_disk_fails true world0).
  unfold some_query_fails. simpl.
  right; right; right; right; left. discriminate.
Defined.
Lemma ascii_art_returns (fs : Files) (filename : string) (w : World) :
  exists w', ascii_art.PrintASCIIArt fs filename w = Done tt w'.
Proof.
  unfold ascii_art.PrintASCIIArt.
  destruct (ReadFile fs _) as [data [err|]]; unfold print; eauto.
Qed.

(** The world in which [runNeofetch] calls [PrintSystemInfo]. *)
Lemma runNeofetch_art (fs : Files) (h : Host) (noAscii noColors : bool)
  (w : World) :
  exists w1,
    (if negb noAscii then ascii_art.PrintASCIIArt fs "default" else ret tt) w
    = Done tt w1
    /\ cmd.runNeofetch fs h noAscii noColors w
       = match report.PrintSystemInfo h noColors w1 with
         | Done _ w2 => Done tt w2
         | Panic msg w2 => Panic msg w2
         | Exited code w2 => Exited code w2
         end.
Proof.
  assert (exists w1,
    (if negb noAscii then ascii_art.PrintASCIIArt fs "default" else ret tt) w
    = Done tt w1) as [w1 H1].
  { destruct noAscii; simpl.
    - unfold ret; eauto.
    - apply ascii_art_returns. }
  exists w1. split; [assumption|].
  unfold cmd.runNeofetch, bind. rewrite H1.
  destruct (report.PrintSystemInfo h noColors w1) as [[e|] w2| |]; reflexivity.
Qed.

Lemma for_each_returns {A} (body : A -> M unit) (l : list A) (w : World) :
  (forall x w0, exists w1, body x w0 = Done tt w1) ->
  exists w', for_each l body w = Done tt w'.
Proof.
  intros Hbody. revert w. induction l as [|x l IH]; intros w.
  - cbn [for_each]. unfold ret. eauto.
  - cbn [for_each]. unfold bind. destruct (Hbody x w) as [w1 ->]. apply IH.
Qed.

Lemma printSystemDetails_returns (info : report.SystemInfo)
  (schemes : report.colorSchemes) (w : World) :
  exists w', report.printSystemDetails info schemes w = Done tt w'.
Proof.
  unfold report.printSystemDetails. apply for_each_returns.
  intros m w0. unfold bind, color.Sprint, print. eauto.
Qed.

Lemma PrintSystemInfo_never_exits (h : Host) (noColor : bool) (w : World)
  (code : Z) (w' : World) :
  report.PrintSystemInfo h noColor w <> Exited code w'.
Proof.
  unfold report.PrintSystemInfo, bind, set_NoColor, report.collectSystemInfo.
  destruct (host_Info h) as [v1 [e|]]; [discriminate|].
  destruct (cpu_Info h) as [v2 [e|]]; [discriminate|].
  destruct (cpu_Counts h true) as [v3 [e|]]; [discriminate|].
  destruct (mem_VirtualMemory h) as [v4 [e|]]; [discriminate|].
  destruct (disk_Usage h "/") as [v5 [e|]]; [discriminate|].
  destruct (net_IOCounters h false) as [v6 [e|]]; [discriminate|].
  destruct v2 as [|c0 v2]; [discriminate|].
  destruct v6 as [|n0 v6]; [discriminate|].
  unfold ret.
  match goal with
  | |- context [report.printSystemDetails ?i ?s ?w0] =>
    destruct (printSystemDetails_returns i s w0) as [w1 ->]
  end.
  discriminate.
Qed.

(** X16: The error of the report is dropped: when [PrintSystemInfo]
    returns an error, [runNeofetch] returns without one, [Execute]
    returns too and the process ends with status 0.  [os.Exit] is
    reached only with the error of the command: a run that ends with
    another status than 0, and not by a panic, ends with status 1 and
    the command has returned an error. *)
Theorem collection_error_is_swallowed
  (fs : Files) (h : Host) (inv : cmd.Invocation) (w : World) :
  (forall noAscii noColors w1 err w2,
     (if negb noAscii then ascii_art.PrintASCIIArt fs "default" else ret tt) w
     = Done tt w1 ->
     report.PrintSystemInfo h noColors w1 = Done (Some err) w2 ->
     cmd.runNeofetch fs h noAscii noColors w = Done tt w2
     /\ cmd.Execute fs h (cmd.Invoke noAscii noColors) w = Done tt w2
     /\ exit_status (cmd.Execute fs h (cmd.Invoke noAscii noColors) w) = 0%Z)
  /\ ((forall msg w', cmd.Execute fs h inv w <> Panic msg w') ->
      exit_status (cmd.Execute fs h inv w) <> 0%Z ->
      exit_status (cmd.Execute fs h inv w) = 1%Z
      /\ exists err,
           cmd.rootCmd_Execute fs h inv w = Done (Some err) w).
Proof.
  split.
  - intros noAscii noColors w1 err w2 Hart Hprint.
    destruct (runNeofetch_art fs h noAscii noColors w) as (w1' & Hart' & Hrun).
    rewrite Hart in Hart'. injection Hart' as <-.
    rewrite Hprint in Hrun.
    assert (E : cmd.Execute fs h (cmd.Invoke noAscii noColors) w = Done tt w2).
    { unfold cmd.Execute, cmd.rootCmd_Execute, bind. now rewrite Hrun. }
    rewrite E. auto.
  - intros Hnopanic Hstatus. destruct inv as [err | usage | noAscii noColors].
    + split; [reflexivity|]. exists err. reflexivity.
    + now contradiction Hstatus.
    + exfalso.
      destruct (runNeofetch_art fs h noAscii noColors w) as (w1 & _ & Hrun).
      unfold cmd.Execute, cmd.rootCmd_Execute, bind in Hnopanic, Hstatus.
      rewrite Hrun in Hnopanic, Hstatus.
      destruct (report.PrintSystemInfo h noColors w1) as [a w2|msg w2|c w2] eqn:E.
      * now apply Hstatus.
      * now apply (Hnopanic msg w2).
      * now apply (PrintSystemInfo_never_exits h noColors w1 c w2).
Qed.

Lemma collection_error_witness :
  (cmd.runNeofetch files_none host_disk_fails true true world0
   = Done tt (mkWorld true [])
   /\ cmd.Execute files_none host_disk_fails (cmd.Invoke true true) world0
      = Done tt (mkWorld true [])
   /\ exit_status
        (cmd.Execute files_none host_disk_fails (cmd.Invoke true true) world0)
      = 0%Z)
  /\ (exit_status
        (cmd.Execute files_none host_disk_fails
           (cmd.CommandError "unknown flag: --colour") world0) = 1%Z
      /\ exists err,
           cmd.rootCmd_Execute files_none host_disk_fails
             (cmd.CommandError "unknown flag: --colour") world0
           = Done (Some err) world0).
Proof.
  split.
  - apply (proj1 (collection_error_is_swallowed files_none host_disk_fails
                    (cmd.Invoke true true) world0)
             true true world0
             ("failed to collect system information: "
              ++ "failed to get disk info: permission denied")).
    + reflexivity.
    + reflexivity.
  - apply (proj2 (collection_error_is_swallowed files_none host_disk_fails
                    (cmd.CommandError "unknown flag: --colour") world0)).
    + intros msg w'. discriminate.
    + simpl. discriminate.
Defined.

(** C9: A status other than 0 without an error of the command.  Where
    the CPU query succeeds with an empty list, [collectSystemInfo]
    takes its first element without a test of the length and panics
    (the queries that fail give a wrapped error instead, which
    [runNeofetch] drops); the command has returned no error, [Execute]
    does not reach its [os.Exit], and the process ends with status 2. *)
Lemma empty_cpu_list_exits_nonzero :
  cmd.rootCmd_Execute files_none host_no_cpu (cmd.Invoke true false) world0
  = Panic report.index_panic world0
  /\ cmd.Execute files_none host_no_cpu (cmd.Invoke true false) world0
     = Panic report.index_panic world0
  /\ exit_status
       (cmd.Execute files_none host_no_cpu (cmd.Invoke true false) world0)
     = 2%Z.
Proof. repeat split. Qed.

(* ===================================================================== *)
(** * Properties of the padding *)
(* ===================================================================== *)

Lemma count_from_nonneg (s : string) (skip : nat) :
  (0 <= utf8.count_from skip s)%Z.
Proof.
  revert skip. induction s as [|c s IH]; intros skip;
    cbn [utf8.count_from].
  - lia.
  - destruct skip as [|k].
    + specialize (IH (snd (utf8.DecodeRuneInString (String c s)) - 1)%nat).
      lia.
    + apply IH.
Qed.

Lemma wrap_int_small (z : Z) :
  (min_int <= z <= max_int)%Z -> wrap_int z = z.
Proof.
  unfold wrap_int, min_int, max_int. intros H.
  rewrite Z.mod_small; lia.
Qed.

Lemma getPadding_no_wrap (content : string) (width : Z) :
  (width <= max_int)%Z ->
  (min_int <= width - report.getDisplayWidth content)%Z ->
  report.getPadding content width
  = strings.Repeat " "
      (Z.to_nat (Z.max 0 (width - utf8.RuneCountInString content))).
Proof.
  intros Hmax Hmin. unfold report.getPadding, int_sub.
  pose proof (count_from_nonneg content 0) as Hc.
  unfold report.getDisplayWidth, utf8.RuneCountInString in *.
  rewrite wrap_int_small by lia.
  destruct (Z.ltb_spec (width - utf8.count_from 0 content) 0).
  - now rewrite Z.max_l by lia.
  - now rewrite Z.max_r by lia.
Qed.

Lemma byte_val_of (b : Z) : (0 <= b < 256)%Z -> byte_val (byte_of b) = b.
Proof.
  intros H. unfold byte_val, byte_of.
  rewrite Z.mod_small by lia.
  rewrite N_ascii_embedding by lia. lia.
Qed.

(** Facts about numbers below a small bound are checked case by case. *)
Lemma below_cases (P : Z -> Prop) (n : nat) :
  (forall k, (k < n)%nat -> P (Z.of_nat k)) ->
  forall x, (0 <= x < Z.of_nat n)%Z -> P x.
Proof.
  intros H x Hx. rewrite <- (Z2Nat.id x) by lia. apply H. lia.
Qed.

Lemma lor_tx (x : Z) : (0 <= x < 64)%Z -> Z.lor utf8.tx x = (128 + x)%Z.
Proof.
  revert x. apply (below_cases _ 64). intros k Hk.
  do 64 (destruct k as [|k]; [reflexivity|]). lia.
Qed.

Lemma lor_t2 (x : Z) : (0 <= x < 32)%Z -> Z.lor utf8.t2 x = (192 + x)%Z.
Proof.
  revert x. apply (below_cases _ 32). intros k Hk.
  do 32 (destruct k as [|k]; [reflexivity|]). lia.
Qed.

Lemma lor_t3 (x : Z) : (0 <= x < 16)%Z -> Z.lor utf8.t3 x = (224 + x)%Z.
Proof.
  revert x. apply (below_cases _ 16). intros k Hk.
  do 16 (destruct k as [|k]; [reflexivity|]). lia.
Qed.

Lemma lor_t4 (x : Z) : (0 <= x < 8)%Z -> Z.lor utf8.t4 x = (240 + x)%Z.
Proof.
  revert x. apply (below_cases _ 8). intros k Hk.
  do 8 (destruct k as [|k]; [reflexivity|]). lia.
Qed.

Lemma land_maskx (x : Z) : Z.land x utf8.maskx = (x mod 64)%Z.
Proof. change utf8.maskx with (Z.ones 6). now rewrite Z.land_ones by lia. Qed.

Ltac decide_cmp :=
  repeat match goal with
  | |- context [(?a <? ?b)%Z] => destruct (Z.ltb_spec a b); try lia
  | |- context [(?a <=? ?b)%Z] => destruct (Z.leb_spec a b); try lia
  | |- context [(?a =? ?b)%Z] => destruct (Z.eqb_spec a b); try lia
  end.

Lemma first_ascii (b : Z) : (0 <= b < 128)%Z -> utf8.first b = utf8.as_.
Proof. intros H. unfold utf8.first. decide_cmp; try reflexivity. Qed.

Lemma first_two (b : Z) : (194 <= b <= 223)%Z -> utf8.first b = utf8.s1.
Proof. intros H. unfold utf8.first. decide_cmp; try reflexivity. Qed.

Lemma first_three (b : Z) :
  (224 <= b <= 239)%Z ->
  utf8.first b
  = if (b =? 224)%Z then utf8.s2
    else if (b =? 237)%Z then utf8.s4 else utf8.s3.
Proof. intros H. unfold utf8.first. decide_cmp; try reflexivity. Qed.

Lemma first_four (b : Z) :
  (240 <= b <= 244)%Z ->
  utf8.first b
  = if (b =? 240)%Z then utf8.s5
    else if (b =? 244)%Z then utf8.s7 else utf8.s6.
Proof. intros H. unfold utf8.first. decide_cmp; try reflexivity. Qed.

Lemma decode_one (b : Z) (t : string) :
  (0 <= b < 128)%Z ->
  utf8.DecodeRuneInString (String (byte_of b) t) = (b, 1%nat).
Proof.
  intros H. unfold utf8.DecodeRuneInString.
  rewrite byte_val_of by lia. rewrite first_ascii by lia. reflexivity.
Qed.

Lemma decode_two (b0 b1 : Z) (t : string) :
  (194 <= b0 <= 223)%Z -> (128 <= b1 <= 191)%Z ->
  snd (utf8.DecodeRuneInString
         (String (byte_of b0) (String (byte_of b1) t))) = 2%nat.
Proof.
  intros H0 H1. unfold utf8.DecodeRuneInString.
  rewrite !byte_val_of by lia. rewrite first_two by lia.
  cbn [length].
  change (utf8.as_ <=? utf8.s1)%Z with false.
  change (Z.land utf8.s1 7) with 2%Z.
  change (utf8.acceptRanges (Z.shiftr utf8.s1 4)) with (128, 191)%Z.
  cbv iota beta zeta.
  decide_cmp; try reflexivity.
Qed.

Lemma decode_three (b0 b1 b2 : Z) (t : string) :
  (224 <= b0 <= 239)%Z -> (128 <= b1 <= 191)%Z -> (128 <= b2 <= 191)%Z ->
  (b0 = 224 -> 160 <= b1)%Z -> (b0 = 237 -> b1 <= 159)%Z ->
  snd (utf8.DecodeRuneInString
         (String (byte_of b0) (String (byte_of b1) (String (byte_of b2) t))))
  = 3%nat.
Proof.
  intros H0 H1 H2 Hlo Hhi. unfold utf8.DecodeRuneInString.
  rewrite !byte_val_of by lia. rewrite first_three by lia.
  cbn [length].
  destruct (Z.eqb_spec b0 224) as [E|N1];
    [|destruct (Z.eqb_spec b0 237) as [E|N2]].
  - change (utf8.as_ <=? utf8.s2)%Z with false.
    change (Z.land utf8.s2 7) with 3%Z.
    change (utf8.acceptRanges (Z.shiftr utf8.s2 4)) with (160, 191)%Z.
    cbv iota beta zeta. specialize (Hlo E).
    unfold utf8.locb, utf8.hicb. decide_cmp; try reflexivity.
  - change (utf8.as_ <=? utf8.s4)%Z with false.
    change (Z.land utf8.s4 7) with 3%Z.
    change (utf8.acceptRanges (Z.shiftr utf8.s4 4)) with (128, 159)%Z.
    cbv iota beta zeta. specialize (Hhi E).
    unfold utf8.locb, utf8.hicb. decide_cmp; try reflexivity.
  - change (utf8.as_ <=? utf8.s3)%Z with false.
    change (Z.land utf8.s3 7) with 3%Z.
    change (utf8.acceptRanges (Z.shiftr utf8.s3 4)) with (128, 191)%Z.
    cbv iota beta zeta.
    unfold utf8.locb, utf8.hicb. decide_cmp; try reflexivity.
Qed.

Lemma decode_four (b0 b1 b2 b3 : Z) (t : string) :
  (240 <= b0 <= 244)%Z -> (128 <= b1 <= 191)%Z -> (128 <= b2 <= 191)%Z ->
  (128 <= b3 <= 191)%Z ->
  (b0 = 240 -> 144 <= b1)%Z -> (b0 = 244 -> b1 <= 143)%Z ->
  snd (utf8.DecodeRuneInString
         (String (byte_of b0) (String (byte_of b1)
            (String (byte_of b2) (String (byte_of b3) t)))))
  = 4%nat.
Proof.
  intros H0 H1 H2 H3 Hlo Hhi. unfold utf8.DecodeRuneInString.
  rewrite !byte_val_of by lia. rewrite first_four by lia.
  cbn [length].
  destruct (Z.eqb_spec b0 240) as [E|N1];
    [|destruct (Z.eqb_spec b0 244) as [E|N2]].
  - change (utf8.as_ <=? utf8.s5)%Z with false.
    change (Z.land utf8.s5 7) with 4%Z.
    change (utf8.acceptRanges (Z.shiftr utf8.s5 4)) with (144, 191)%Z.
    cbv iota beta zeta. specialize (Hlo E).
    unfold utf8.locb, utf8.hicb. decide_cmp; try reflexivity.
  - change (utf8.as_ <=? utf8.s7)%Z with false.
    change (Z.land utf8.s7 7) with 4%Z.
    change (utf8.acceptRanges (Z.shiftr utf8.s7 4)) with (128, 143)%Z.
    cbv iota beta zeta. specialize (Hhi E).
    unfold utf8.locb, utf8.hicb. decide_cmp; try reflexivity.
  - change (utf8.as_ <=? utf8.s6)%Z with false.
    change (Z.land utf8.s6 7) with 4%Z.
    change (utf8.acceptRanges (Z.shiftr utf8.s6 4)) with (128, 191)%Z.
    cbv iota beta zeta.
    unfold utf8.locb, utf8.hicb. decide_cmp; try reflexivity.
Qed.

(** One rune is counted for the encoding of any rune. *)
Lemma count_encoding3 (r : Z) (t : string) :
  (2048 <= r <= 65535)%Z -> ~ (55296 <= r <= 57343)%Z ->
  utf8.count_from 0 (utf8.encode3 r ++ t) = (1 + utf8.count_from 0 t)%Z.
Proof.
  intros Hr Hs. unfold utf8.encode3, bytes_of.
  rewrite !land_maskx, !Z.shiftr_div_pow2 by lia.
  change (2 ^ 12)%Z with 4096%Z. change (2 ^ 6)%Z with 64%Z.
  rewrite lor_t3 by (Z.div_mod_to_equations; lia).
  rewrite !lor_tx by (Z.div_mod_to_equations; lia).
  cbn [append utf8.count_from].
  rewrite decode_three by (Z.div_mod_to_equations; lia).
  reflexivity.
Qed.

Lemma count_encoding (r : Z) (t : string) :
  utf8.count_from 0 (utf8.EncodeRune r ++ t) = (1 + utf8.count_from 0 t)%Z.
Proof.
  unfold utf8.EncodeRune, utf8.rune1Max, utf8.rune2Max, utf8.rune3Max,
    utf8.MaxRune, utf8.surrogateMin, utf8.surrogateMax.
  destruct (Z.leb_spec 0 r); cbn [andb orb];
    [destruct (Z.leb_spec r 127); cbn [andb orb];
     [|destruct (Z.leb_spec r 2047); cbn [andb orb]]|].
  - unfold bytes_of. cbn [append utf8.count_from].
    rewrite decode_one by lia. reflexivity.
  - unfold bytes_of.
    rewrite !land_maskx, !Z.shiftr_div_pow2 by lia.
    change (2 ^ 6)%Z with 64%Z.
    rewrite lor_t2 by (Z.div_mod_to_equations; lia).
    rewrite !lor_tx by (Z.div_mod_to_equations; lia).
    cbn [append utf8.count_from].
    rewrite decode_two by (Z.div_mod_to_equations; lia).
    reflexivity.
  - destruct (Z.ltb_spec r 0); [lia|]. cbn [orb].
    destruct (Z.ltb_spec 1114111 r); cbn [orb];
      [apply count_encoding3; unfold utf8.RuneError; lia|].
    destruct (Z.leb_spec 55296 r); cbn [andb];
      [destruct (Z.leb_spec r 57343); cbn [andb];
       [apply count_encoding3; unfold utf8.RuneError; lia|]|].
    + destruct (Z.leb_spec r 65535); [apply count_encoding3; lia|].
      unfold bytes_of.
      rewrite !land_maskx, !Z.shiftr_div_pow2 by lia.
      change (2 ^ 18)%Z with 262144%Z. change (2 ^ 12)%Z with 4096%Z.
      change (2 ^ 6)%Z with 64%Z.
      rewrite lor_t4 by (Z.div_mod_to_equations; lia).
      rewrite !lor_tx by (Z.div_mod_to_equations; lia).
      cbn [append utf8.count_from].
      rewrite decode_four by (Z.div_mod_to_equations; lia).
      reflexivity.
    + destruct (Z.leb_spec r 65535); [apply count_encoding3; lia|]. lia.
  - destruct (Z.ltb_spec r 0); [|lia]. cbn [orb].
    apply count_encoding3; unfold utf8.RuneError; lia.
Qed.

Lemma count_append_encodings (cps : list Z) :
  utf8.RuneCountInString (utf8_of cps) = Z.of_nat (List.length cps).
Proof.
  unfold utf8.RuneCountInString.
  induction cps as [|r cps IH]; [reflexivity|].
  cbn [utf8_of List.length]. rewrite count_encoding, IH. lia.
Qed.

Lemma repeat_none (s : string) : strings.Repeat s 0 = "".
Proof. reflexivity. Qed.

Lemma Repeat_space (n : nat) : strings.Repeat " " n = spaces n.
Proof.
  induction n as [|n IH]; [reflexivity|].
  cbn [strings.Repeat spaces append]. now rewrite IH.
Qed.

Lemma spaces_length (n : nat) : String.length (spaces n) = n.
Proof. induction n as [|n IH]; cbn [spaces String.length]; congruence. Qed.

Lemma spaces_get (n i : nat) (c : ascii) :
  String.get i (spaces n) = Some c -> c = space.
Proof.
  revert i. induction n as [|n IH]; intros i; cbn [spaces String.get].
  - discriminate.
  - destruct i as [|i]; [congruence | apply IH].
Qed.

(** C6: [getPadding] returns exactly max(0, totalWidth - width) spaces,
    where the width of the content is its number of runes: the result
    is the string of that many spaces, it has that length and each of
    its bytes is a space.  For a content as wide as the total width,
    and for a wider one, it is the empty string.  The width of the
    UTF-8 text of a sequence of code points is the number of the code
    points.  (The total width is an [int], and the difference is
    assumed not to leave the range of [int], as is the case for every
    total width from -1 on.) *)
Theorem padding_is_the_missing_width (content : string) (width : Z) :
  (width <= max_int)%Z ->
  (min_int <= width - report.getDisplayWidth content)%Z ->
  report.getPadding content width
  = spaces (Z.to_nat (Z.max 0 (width - report.getDisplayWidth content)))
  /\ Z.of_nat (String.length (report.getPadding content width))
     = Z.max 0 (width - report.getDisplayWidth content)
  /\ (forall (i : nat) (c : ascii),
        String.get i (report.getPadding content width) = Some c ->
        c = space)
  /\ (report.getDisplayWidth content = width ->
      report.getPadding content width = "")
  /\ ((width < report.getDisplayWidth content)%Z ->
      report.getPadding content width = "")
  /\ (forall cps : list Z,
        content = utf8_of cps ->
        report.getDisplayWidth content = Z.of_nat (List.length cps)).
Proof.
  intros Hmax Hmin.
  pose proof (getPadding_no_wrap content width Hmax Hmin) as E.
  fold (report.getDisplayWidth content) in E.
  rewrite Repeat_space in E.
  repeat split.
  - exact E.
  - rewrite E, spaces_length. lia.
  - intros i c. rewrite E. apply spaces_get.
  - intros Hw. rewrite E, Hw, Z.sub_diag. reflexivity.
  - intros Hw. rewrite E, Z.max_l by lia. reflexivity.
  - intros cps ->. apply count_append_encodings.
Qed.

Lemma padding_witness :
  (report.getPadding (utf8_of [0xF17C; 0x20; 0x4F; 0x53]) 58 = spaces 54
   /\ String.length (report.getPadding (utf8_of [0xF17C; 0x20; 0x4F; 0x53]) 58)
      = 54%nat
   /\ report.getDisplayWidth (utf8_of [0xF17C; 0x20; 0x4F; 0x53]) = 4%Z)
  /\ (report.getDisplayWidth "abc" = 3%Z /\ report.getPadding "abc" 3 = "")
  /\ ((3 < report.getDisplayWidth "abcd")%Z
      /\ report.getPadding "abcd" 3 = "").
Proof.
  split; [|split].
  - destruct (padding_is_the_missing_width
                (utf8_of [0xF17C; 0x20; 0x4F; 0x53]) 58)
      as (E & L & _ & _ & _ & Hc).
    + vm_compute. discriminate.
    + vm_compute. discriminate.
    + split; [exact E|]. split; [apply Nat2Z.inj; exact L|].
      exact (Hc [0xF17C; 0x20; 0x4F; 0x53]%Z eq_refl).
  - destruct (padding_is_the_missing_width "abc" 3)
      as (_ & _ & _ & Hequal & _).
    + vm_compute. discriminate.
    + vm_compute. discriminate.
    + split; [reflexivity | exact (Hequal eq_refl)].
  - destruct (padding_is_the_missing_width "abcd" 3)
      as (_ & _ & _ & _ & Hwider & _).
    + vm_compute. discriminate.
    + vm_compute. discriminate.
    + split; [reflexivity | exact (Hwider eq_refl)].
Defined.

(* ===================================================================== *)
(** * Properties of the collected values and of the rendering *)
(* ===================================================================== *)

(** What a successful collection returns. *)
Lemma collect_success (h : Host) (w w' : World) (info : report.SystemInfo) :
  report.collectSystemInfo h w = Done (Some info, None) w' ->
  w' = w
  /\ exists cpu0 cpus net0 nets,
       fst (cpu_Info h) = cpu0 :: cpus
       /\ fst (net_IOCounters h false) = net0 :: nets
       /\ info
          = {| report.Platform :=
                 host.Platform (fst (host_Info h)) ++ " "
                 ++ host.PlatformVersion (fst (host_Info h));
               report.Kernel := host.KernelVersion (fst (host_Info h));
               report.Hostname := host.Hostname (fst (host_Info h));
               report.CPU :=
                 cpu.ModelName cpu0 ++ " ("
                 ++ fmt.verb_d (fst (cpu_Counts h true)) ++ " cores)";
               report.Memory :=
                 float64.div
                   (float64.of_int (mem.Total (fst (mem_VirtualMemory h))))
                   (float64.of_int (2 ^ 30));
               report.Disk :=
                 float64.div
                   (float64.of_int (disk.Total (fst (disk_Usage h "/"))))
                   (float64.of_int (2 ^ 30));
               report.Uptime :=
                 float64.div
                   (float64.of_int (host.Uptime (fst (host_Info h))))
                   (float64.of_int 3600);
               report.NetworkSent :=
                 float64.div (float64.of_int (net.BytesSent net0))
                             (float64.of_int (2 ^ 20));
               report.NetworkRecv :=
                 float64.div (float64.of_int (net.BytesRecv net0))
                             (float64.of_int (2 ^ 20)) |}.
Proof.
  unfold report.collectSystemInfo.
  destruct (host_Info h) as [v1 [e|]]; [discriminate|].
  destruct (cpu_Info h) as [v2 [e|]]; [discriminate|].
  destruct (cpu_Counts h true) as [v3 [e|]]; [discriminate|].
  destruct (mem_VirtualMemory h) as [v4 [e|]]; [discriminate|].
  destruct (disk_Usage h "/") as [v5 [e|]]; [discriminate|].
  destruct (net_IOCounters h false) as [v6 [e|]]; [discriminate|].
  destruct v2 as [|c0 v2]; [discriminate|].
  destruct v6 as [|n0 v6]; [discriminate|].
  unfold ret. intros H. injection H as <- <-.
  split; [reflexivity|]. exists c0, v2, n0, v6. auto.
Qed.

(** C5: a successful collection stores the memory and disk totals
    divided by 2^30 and the uptime divided by 3600, as [float64]
    quotients that are not rounded to two decimals (5401 seconds are
    not stored as 1.5 hours); the report shows them with two decimals:
    1073741824 bytes as "1.00 GB", 0 bytes as "0.00 GB", 3600 seconds
    as "1.00 hours", 5400 seconds as "1.50 hours". *)
Theorem totals_are_divided_and_shown_with_two_decimals
  (h : Host) (w w' : World) (info : report.SystemInfo) :
  report.collectSystemInfo h w = Done (Some info, None) w' ->
  let memTotal := mem.Total (fst (mem_VirtualMemory h)) in
  let diskTotal := disk.Total (fst (disk_Usage h "/")) in
  let seconds := host.Uptime (fst (host_Info h)) in
  report.Memory info
  = float64.div (float64.of_int memTotal) (float64.of_int GiB)
  /\ report.Disk info
     = float64.div (float64.of_int diskTotal) (float64.of_int GiB)
  /\ report.Uptime info
     = float64.div (float64.of_int seconds) (float64.of_int 3600)
  /\ (memTotal = 1073741824%Z -> shown info "Memory" = Some "1.00 GB")
  /\ (diskTotal = 0%Z -> shown info "Disk" = Some "0.00 GB")
  /\ (seconds = 3600%Z -> shown info "Uptime" = Some "1.00 hours")
  /\ (seconds = 5400%Z -> shown info "Uptime" = Some "1.50 hours")
  /\ (seconds = 5401%Z ->
      report.Uptime info
      <> float64.div (float64.of_int 5400) (float64.of_int 3600)
      /\ shown info "Uptime" = Some "1.50 hours").
Proof.
  intros H. apply collect_success in H as (_ & c0 & cs & n0 & ns & _ & _ & ->).
  cbv zeta. cbn [report.Memory report.Disk report.Uptime].
  repeat split; try reflexivity.
  - intros ->. vm_compute. reflexivity.
  - intros ->. vm_compute. reflexivity.
  - intros ->. vm_compute. reflexivity.
  - intros ->. vm_compute. reflexivity.
  - rewrite H. vm_compute. discriminate.
  - rewrite H. vm_compute. reflexivity.
Qed.

Lemma totals_witness :
  let memTotal := mem.Total (fst (mem_VirtualMemory (host_up 5400))) in
  let diskTotal := disk.Total (fst (disk_Usage (host_up 5400) "/")) in
  let seconds := host.Uptime (fst (host_Info (host_up 5400))) in
  report.Memory info_up
  = float64.div (float64.of_int memTotal) (float64.of_int GiB)
  /\ report.Disk info_up
     = float64.div (float64.of_int diskTotal) (float64.of_int GiB)
  /\ report.Uptime info_up
     = float64.div (float64.of_int seconds) (float64.of_int 3600)
  /\ (memTotal = 1073741824%Z -> shown info_up "Memory" = Some "1.00 GB")
  /\ (diskTotal = 0%Z -> shown info_up "Disk" = Some "0.00 GB")
  /\ (seconds = 3600%Z -> shown info_up "Uptime" = Some "1.00 hours")
  /\ (seconds = 5400%Z -> shown info_up "Uptime" = Some "1.50 hours")
  /\ (seconds = 5401%Z ->
      report.Uptime info_up
      <> float64.div (float64.of_int 5400) (float64.of_int 3600)
      /\ shown info_up "Uptime" = Some "1.50 hours").
Proof.
  apply (totals_are_divided_and_shown_with_two_decimals
           (host_up 5400) world0 world0 info_up).
  reflexivity.
Defined.

Lemma collect_keeps_world (h : Host) (w : World) :
  report.collectSystemInfo h w
  = match report.collectSystemInfo h world0 with
    | Done r _ => Done r w
    | Panic msg _ => Panic msg w
    | Exited code _ => Exited code w
    end.
Proof.
  unfold report.collectSystemInfo.
  destruct (host_Info h) as [v1 [e|]]; [reflexivity|].
  destruct (cpu_Info h) as [v2 [e|]]; [reflexivity|].
  destruct (cpu_Counts h true) as [v3 [e|]]; [reflexivity|].
  destruct (mem_VirtualMemory h) as [v4 [e|]]; [reflexivity|].
  destruct (disk_Usage h "/") as [v5 [e|]]; [reflexivity|].
  destruct (net_IOCounters h false) as [v6 [e|]]; [reflexivity|].
  destruct v2 as [|c0 v2]; [reflexivity|].
  destruct v6 as [|n0 v6]; reflexivity.
Qed.

Lemma for_each_print (b : bool) (l : list report.metric) (out : list string) :
  for_each l (fun m =>
    bind (color.Sprint (report.header report.createColorSchemes)
                       (report.name m)) (fun styled_name =>
    bind (color.Sprint (report.value report.createColorSchemes)
                       (report.valueStr m)) (fun styled_value =>
    let line := report.icon m ++ " " ++ styled_name ++ ": " ++ styled_value in
    let padding := report.getPadding line report.totalWidth in
    print (" " ++ line ++ padding ++ " " ++ str newline))))
    (mkWorld b out)
  = Done tt (mkWorld b (out ++ map (render_line b) l)).
Proof.
  revert out. induction l as [|m l IH]; intros out.
  - cbn [for_each map]. unfold ret. now rewrite app_nil_r.
  - cbn [for_each map]. unfold bind at 1.
    unfold bind at 1, color.Sprint at 1. unfold bind at 1, color.Sprint at 1.
    unfold print at 1. cbn [NoColor stdout].
    rewrite IH. rewrite <- app_assoc. destruct b; reflexivity.
Qed.

Lemma printSystemDetails_output (info : report.SystemInfo) (b : bool)
  (out : list string) :
  report.printSystemDetails info report.createColorSchemes (mkWorld b out)
  = Done tt (mkWorld b (out ++ map (render_line b) (report.metrics info))).
Proof. unfold report.printSystemDetails. apply for_each_print. Qed.

Lemma PrintSystemInfo_success (h : Host) (w w' : World)
  (info : report.SystemInfo) (noColor : bool) :
  report.collectSystemInfo h w = Done (Some info, None) w' ->
  report.PrintSystemInfo h noColor w
  = Done None
      (mkWorld noColor
         (stdout w ++ map (render_line noColor) (report.metrics info))).
Proof.
  intros H. rewrite collect_keeps_world in H.
  unfold report.PrintSystemInfo, bind, set_NoColor.
  rewrite collect_keeps_world.
  destruct (report.collectSystemInfo h world0) as [r w0| |];
    try discriminate.
  injection H as -> _.
  rewrite printSystemDetails_output. reflexivity.
Qed.


Lemma occurs_app (c : ascii) (a b : string) :
  occurs c (a ++ b) = occurs c a || occurs c b.
Proof.
  induction a as [|x a IH]; cbn [append occurs]; [reflexivity|].
  now rewrite IH, orb_assoc.
Qed.

Lemma escape_free_app (a b : string) :
  escape_free a -> escape_free b -> escape_free (a ++ b).
Proof.
  unfold escape_free. intros Ha Hb. now rewrite occurs_app, Ha, Hb.
Qed.

Lemma escape_free_repeat (s : string) (k : nat) :
  escape_free s -> escape_free (strings.Repeat s k).
Proof.
  intros Hs. induction k as [|k IH]; [reflexivity|].
  cbn [strings.Repeat]. now apply escape_free_app.
Qed.

Lemma escape_free_uint (d : Decimal.uint) :
  escape_free (NilEmpty.string_of_uint d).
Proof. induction d; [reflexivity | assumption ..]. Qed.

Lemma escape_free_itoa (n : Z) : escape_free (float64.itoa n).
Proof.
  unfold float64.itoa, NilZero.string_of_int.
  destruct (Z.to_int n) as [d|d]; unfold NilZero.string_of_uint.
  - destruct d; try reflexivity; apply escape_free_uint.
  - change (escape_free ("-" ++ match d with
                                | Decimal.Nil => "0"
                                | _ => NilEmpty.string_of_uint d
                                end)).
    apply escape_free_app; [reflexivity|].
    destruct d; try reflexivity; apply escape_free_uint.
Qed.

Lemma escape_free_verb_2f (x : float64.t) : escape_free (fmt.verb_2f x).
Proof.
  unfold fmt.verb_2f, float64.FormatFloat_f.
  assert (F : forall (s : bool) (n : Z),
    escape_free ((if s then "-" else "")
                 ++ float64.itoa (n / 10 ^ Z.of_nat 2)%Z
                 ++ "." ++ float64.zero_padded 2 (n mod 10 ^ Z.of_nat 2)%Z)).
  { intros s n. apply escape_free_app; [now destruct s|].
    apply escape_free_app; [apply escape_free_itoa|].
    apply escape_free_app; [reflexivity|].
    unfold float64.zero_padded.
    apply escape_free_app;
      [apply escape_free_repeat; reflexivity | apply escape_free_itoa]. }
  destruct x as [s|s| |s m e].
  - apply F.
  - now destruct s.
  - reflexivity.
  - apply F.
Qed.

(** Text without the escape byte passes through [strip_sgr]. *)
Lemma strip_clean (a b : string) :
  escape_free a -> strip_sgr false (a ++ b) = a ++ strip_sgr false b.
Proof.
  unfold escape_free. induction a as [|c a IH]; intros Ha.
  - reflexivity.
  - cbn [occurs] in Ha. apply orb_false_elim in Ha as [Hc Ha].
    cbn [append strip_sgr]. rewrite Ascii.eqb_sym, Hc.
    now rewrite IH.
Qed.

Lemma strip_clean_all (a : string) :
  escape_free a -> strip_sgr false a = a.
Proof.
  intros Ha. rewrite <- (append_empty_r a) at 1.
  rewrite strip_clean by assumption. cbn [strip_sgr]. apply append_empty_r.
Qed.

Lemma append_assoc (a b c : string) : (a ++ b) ++ c = a ++ (b ++ c).
Proof. induction a; cbn [append]; congruence. Qed.

(** The wrappers of the two colours of the report are stripped. *)
Lemma strip_wrap (c : color.Color) (s rest : string) :
  c = report.header report.createColorSchemes
  \/ c = report.value report.createColorSchemes ->
  escape_free s ->
  strip_sgr false (color.wrap c s ++ rest) = s ++ strip_sgr false rest.
Proof.
  intros Hc Hs. unfold color.wrap. rewrite !append_assoc.
  assert (Hf : forall x, strip_sgr false (color.format c ++ x)
                         = strip_sgr false x).
  { intros x. destruct Hc as [-> | ->]; vm_compute; reflexivity. }
  assert (Hu : forall x, strip_sgr false (color.unformat c ++ x)
                         = strip_sgr false x).
  { intros x. destruct Hc as [-> | ->]; vm_compute; reflexivity. }
  rewrite Hf, strip_clean by assumption. now rewrite Hu.
Qed.



Lemma metrics_clean (info : report.SystemInfo) :
  clean_info info -> Forall clean_metric (report.metrics info).
Proof.
  intros (Hp & Hk & Hh & Hc). unfold report.metrics.
  repeat apply Forall_cons; try apply Forall_nil;
    (split; [reflexivity|split; [reflexivity|]]);
    unfold report.valueStr; cbn [report.mvalue report.unit_];
    try assumption;
    repeat (apply escape_free_app;
            [first [apply escape_free_verb_2f | reflexivity]|]);
    reflexivity.
Qed.

Lemma clean_text (m : report.metric) :
  clean_metric m ->
  escape_free (report.icon m ++ " " ++ report.name m ++ ": "
               ++ report.valueStr m).
Proof.
  intros (Hi & Hn & Hv).
  repeat (apply escape_free_app; [assumption || reflexivity|]). assumption.
Qed.

Lemma plain_line_shows (m : report.metric) :
  shows m (render_line true m).
Proof. unfold shows, render_line, report.getPadding. eauto. Qed.

Lemma plain_line_clean (m : report.metric) :
  clean_metric m -> escape_free (render_line true m).
Proof.
  intros Hm. unfold render_line, report.getPadding.
  apply escape_free_app; [reflexivity|].
  apply escape_free_app; [now apply clean_text|].
  apply escape_free_app; [apply escape_free_repeat; reflexivity|].
  reflexivity.
Qed.

Lemma styled_line_shows (m : report.metric) :
  clean_metric m -> shows m (strip_sgr false (render_line false m)).
Proof.
  intros (Hi & Hn & Hv). unfold shows, render_line, report.getPadding.
  eexists.
  rewrite (strip_clean " ") by reflexivity.
  rewrite !append_assoc.
  rewrite (strip_clean (report.icon m)) by assumption.
  rewrite (strip_clean " ") by reflexivity.
  rewrite strip_wrap by auto.
  rewrite (strip_clean ": ") by reflexivity.
  rewrite strip_wrap by auto.
  rewrite strip_clean_all
    by (apply escape_free_app;
        [apply escape_free_repeat; reflexivity | reflexivity]).
  reflexivity.
Qed.

(** C7: for a collected [SystemInfo] (whose strings hold no escape
    byte), the report printed with the colour switch off holds no
    escape byte, hence no style marker; each of its lines is the icon,
    the label and the value of its metric followed by padding, and so
    is each line of the styled report once its escape sequences are
    taken out. *)
Theorem plain_report_has_the_text_of_the_styled_one
  (h : Host) (w w' : World) (info : report.SystemInfo) :
  report.collectSystemInfo h w = Done (Some info, None) w' ->
  clean_info info ->
  exists plain styled : list string,
    report.PrintSystemInfo h true w
    = Done None (mkWorld true (stdout w ++ plain))
    /\ report.PrintSystemInfo h false w
       = Done None (mkWorld false (stdout w ++ styled))
    /\ Forall escape_free plain
    /\ Forall2 shows (report.metrics info) plain
    /\ Forall2 (fun m line => shows m (strip_sgr false line))
               (report.metrics info) styled.
Proof.
  intros Hc Hinfo.
  exists (map (render_line true) (report.metrics info)),
         (map (render_line false) (report.metrics info)).
  split; [now apply (PrintSystemInfo_success h w w')|].
  split; [now apply (PrintSystemInfo_success h w w')|].
  pose proof (metrics_clean info Hinfo) as Hm.
  induction Hm as [|m l Hm Hl IH]; cbn [map].
  - repeat split; constructor.
  - destruct IH as (I1 & I2 & I3). repeat split; constructor;
      auto using plain_line_clean, plain_line_shows, styled_line_shows.
Qed.

Lemma plain_report_witness :
  exists plain styled : list string,
    report.PrintSystemInfo (host_up 5400) true world0
    = Done None (mkWorld true (stdout world0 ++ plain))
    /\ report.PrintSystemInfo (host_up 5400) false world0
       = Done None (mkWorld false (stdout world0 ++ styled))
    /\ Forall escape_free plain
    /\ Forall2 shows (report.metrics info_up) plain
    /\ Forall2 (fun m line => shows m (strip_sgr false line))
               (report.metrics info_up) styled.
Proof.
  apply (plain_report_has_the_text_of_the_styled_one
           (host_up 5400) world0 world0 info_up).
  - reflexivity.
  - repeat split.
Defined.

(* ===================================================================== *)
(** * Further properties: widths, centring and alignment *)
(* ===================================================================== *)

Lemma byte_val_range (c : ascii) : (0 <= byte_val c < 256)%Z.
Proof.
  unfold byte_val. pose proof (N_ascii_bounded c). lia.
Qed.

Lemma first_cases (b : Z) :
  utf8.first b = utf8.as_ \/ utf8.first b = utf8.xx
  \/ utf8.first b = utf8.s1 \/ utf8.first b = utf8.s2
  \/ utf8.first b = utf8.s3 \/ utf8.first b = utf8.s4
  \/ utf8.first b = utf8.s5 \/ utf8.first b = utf8.s6
  \/ utf8.first b = utf8.s7.
Proof. unfold utf8.first. decide_cmp; tauto. Qed.

Lemma first_ascii_byte (b : Z) : (b < 128)%Z -> utf8.first b = utf8.as_.
Proof. intros H. unfold utf8.first. decide_cmp; try reflexivity. Qed.

Ltac first_constant :=
  cbn [length];
  match goal with
  | H : utf8.first _ = _ |- _ => rewrite !H
  end;
  cbv [utf8.as_ utf8.xx utf8.s1 utf8.s2 utf8.s3 utf8.s4 utf8.s5 utf8.s6
       utf8.s7 utf8.acceptRanges utf8.locb utf8.hicb Z.leb Z.eqb Z.land
       Z.shiftr Z.shiftl Z.compare Pos.compare Pos.compare_cont Pos.land
       Pos.eqb Z.opp Pos.iter Z.div2 Pos.div2 Z.of_N Z.ltb];
  cbv iota beta zeta.

(** The width of a rune is at most the length of the string. *)
Lemma decode_size_le (s : string) :
  (snd (utf8.DecodeRuneInString s) <= length s)%nat.
Proof.
  destruct s as [|c0 s]; [cbn; lia|].
  unfold utf8.DecodeRuneInString.
  destruct (first_cases (byte_val c0))
    as [H|[H|[H|[H|[H|[H|[H|[H|H]]]]]]]]; first_constant;
    try (cbn; lia);
    destruct s as [|c1 [|c2 [|c3 s]]]; cbn [length];
    repeat match goal with
    | |- context [if ?b then _ else _] => destruct b
    end; cbn; lia.
Qed.

Ltac first_constant' :=
  match goal with
  | H : utf8.first _ = _ |- _ => rewrite !H
  end;
  cbv [utf8.as_ utf8.xx utf8.s1 utf8.s2 utf8.s3 utf8.s4 utf8.s5 utf8.s6
       utf8.s7 utf8.acceptRanges utf8.locb utf8.hicb Z.leb Z.eqb
       Z.compare Pos.compare Pos.compare_cont Pos.eqb];
  change (Z.land 2 7) with 2%Z; change (Z.land 3 7) with 3%Z;
  change (Z.land 4 7) with 4%Z; change (Z.land 19 7) with 3%Z;
  change (Z.land 35 7) with 3%Z; change (Z.land 52 7) with 4%Z;
  change (Z.land 68 7) with 4%Z;
  change (Z.shiftr 2 4) with 0%Z; change (Z.shiftr 3 4) with 0%Z;
  change (Z.shiftr 4 4) with 0%Z; change (Z.shiftr 19 4) with 1%Z;
  change (Z.shiftr 35 4) with 2%Z; change (Z.shiftr 52 4) with 3%Z;
  change (Z.shiftr 68 4) with 4%Z;
  cbv iota beta zeta.

Ltac split_tests :=
  repeat match goal with
  | |- context [(?a <? ?b)%Z] =>
    destruct (Z.ltb_spec a b); cbn [orb]; try (exfalso; lia)
  end.

Ltac nonneg_lengths :=
  repeat match goal with
  | |- context [Z.of_nat ?n] =>
    lazymatch goal with
    | H : (0 <= Z.of_nat n)%Z |- _ => fail
    | _ => pose proof (Nat2Z.is_nonneg n)
    end
  end.

(** An ASCII byte after a string does not change its first rune. *)
Lemma decode_before_ascii (c0 : ascii) (s t : string) :
  ascii_led t ->
  utf8.DecodeRuneInString (String c0 s ++ t)
  = utf8.DecodeRuneInString (String c0 s).
Proof.
  intros Ht. unfold utf8.DecodeRuneInString.
  destruct (first_cases (byte_val c0))
    as [H|[H|[H|[H|[H|[H|[H|[H|H]]]]]]]];
    cbn [append]; first_constant'; try reflexivity;
    destruct s as [|c1 [|c2 [|c3 s]]];
    destruct t as [|c t]; cbn [append length ascii_led] in *;
    try reflexivity;
    repeat rewrite Nat2Z.inj_succ; nonneg_lengths;
    split_tests; reflexivity.
Qed.

Lemma count_before_ascii (s t : string) (k : nat) :
  ascii_led t -> (k <= length s)%nat ->
  utf8.count_from k (s ++ t)
  = (utf8.count_from k s + utf8.count_from 0 t)%Z.
Proof.
  intros Ht. revert k. induction s as [|c s IH]; intros k Hk.
  - cbn [length] in Hk. assert (k = 0%nat) as -> by lia.
    cbn [append utf8.count_from]. lia.
  - destruct k as [|k].
    + change (String c s ++ t) with (String c (s ++ t)).
      cbn [utf8.count_from].
      change (String c (s ++ t)) with (String c s ++ t).
      rewrite decode_before_ascii by assumption.
      pose proof (decode_size_le (String c s)) as Hle. cbn [length] in Hle.
      rewrite IH by lia. lia.
    + cbn [append utf8.count_from]. cbn [length] in Hk. apply IH. lia.
Qed.

Lemma decode_ascii_byte (c : ascii) (t : string) :
  (byte_val c < 128)%Z ->
  utf8.DecodeRuneInString (String c t) = (byte_val c, 1%nat).
Proof.
  intros H. unfold utf8.DecodeRuneInString.
  rewrite first_ascii_byte by assumption. reflexivity.
Qed.

Lemma count_ascii_prefix (a s : string) :
  ascii_only a = true ->
  utf8.count_from 0 (a ++ s)
  = (Z.of_nat (length a) + utf8.count_from 0 s)%Z.
Proof.
  induction a as [|c a IH]; intros Ha.
  - reflexivity.
  - cbn [ascii_only] in Ha. apply andb_true_iff in Ha as [Hc Ha].
    apply Z.ltb_lt in Hc.
    change (String c a ++ s) with (String c (a ++ s)).
    cbn [utf8.count_from].
    rewrite decode_ascii_byte by assumption. cbn [snd Nat.sub].
    rewrite IH by assumption. cbn [length]. lia.
Qed.

Lemma ascii_only_spaces (k : nat) : ascii_only (strings.Repeat " " k) = true.
Proof. induction k as [|k IH]; [reflexivity|]. cbn. exact IH. Qed.

Lemma length_spaces (k : nat) : length (strings.Repeat " " k) = k.
Proof. induction k as [|k IH]; [reflexivity|]. cbn. now rewrite IH. Qed.

Lemma ascii_led_spaces (k : nat) : ascii_led (strings.Repeat " " k).
Proof. destruct k; [exact I|]. cbn. lia. Qed.

Lemma count_spaces (k : nat) :
  utf8.count_from 0 (strings.Repeat " " k) = Z.of_nat k.
Proof.
  rewrite <- (append_empty_r (strings.Repeat " " k)).
  rewrite count_ascii_prefix by apply ascii_only_spaces.
  rewrite length_spaces. cbn. lia.
Qed.

(** The width of a text between spaces. *)
Lemma width_padded (l r : nat) (text : string) :
  utf8.RuneCountInString
    (strings.Repeat " " l ++ text ++ strings.Repeat " " r)
  = (Z.of_nat l + utf8.RuneCountInString text + Z.of_nat r)%Z.
Proof.
  unfold utf8.RuneCountInString.
  rewrite count_ascii_prefix by apply ascii_only_spaces.
  rewrite count_before_ascii
    by (try lia; apply ascii_led_spaces).
  rewrite length_spaces, count_spaces. lia.
Qed.

(** X1: The centred text: it is returned as it is when it is at least as
    wide as the width asked for; otherwise it is put between spaces,
    half of the missing width (rounded down) on the left and the rest on
    the right, and the result is exactly as wide as asked.  No negative
    count reaches [strings.Repeat]. *)
Theorem centerText_fills_the_width (text : string) (width : Z) :
  (width <= max_int)%Z ->
  ((width <= report.getDisplayWidth text)%Z ->
   report.centerText text width = Some text)
  /\ ((report.getDisplayWidth text < width)%Z ->
      exists l r : nat,
        report.centerText text width
        = Some (strings.Repeat " " l ++ text ++ strings.Repeat " " r)
        /\ Z.of_nat l = ((width - report.getDisplayWidth text) / 2)%Z
        /\ (l <= r <= l + 1)%nat
        /\ report.getDisplayWidth
             (strings.Repeat " " l ++ text ++ strings.Repeat " " r)
           = width).
Proof.
  intros Hmax. unfold report.centerText.
  pose proof (count_from_nonneg text 0) as Hw.
  fold (utf8.RuneCountInString text) in Hw.
  fold (report.getDisplayWidth text) in Hw.
  set (dw := report.getDisplayWidth text) in *.
  split; intros H.
  - destruct (Z.leb_spec width dw); [reflexivity | lia].
  - destruct (Z.leb_spec width dw); [lia|].
    unfold int_sub. unfold max_int in Hmax.
    rewrite (wrap_int_small (width - dw)) by (unfold min_int, max_int; lia).
    assert (Hq : Z.quot (width - dw) 2 = ((width - dw) / 2)%Z)
      by (apply Z.quot_div_nonneg; lia).
    rewrite Hq.
    assert (Hb : (0 <= (width - dw) / 2 <= width - dw)%Z)
      by (split; [apply Z.div_pos; lia | Z.div_mod_to_equations; lia]).
    rewrite (wrap_int_small ((width - dw) / 2))
      by (unfold min_int, max_int; lia).
    rewrite (wrap_int_small (width - dw - (width - dw) / 2))
      by (unfold min_int, max_int; lia).
    unfold strings.Repeat_int.
    destruct (Z.ltb_spec ((width - dw) / 2) 0); [lia|].
    destruct (Z.ltb_spec (width - dw - (width - dw) / 2) 0); [lia|].
    exists (Z.to_nat ((width - dw) / 2)),
           (Z.to_nat (width - dw - (width - dw) / 2)).
    split; [reflexivity|]. split; [lia|]. split.
    + Z.div_mod_to_equations; lia.
    + unfold report.getDisplayWidth. rewrite width_padded.
      fold (report.getDisplayWidth text). fold dw. lia.
Qed.

Lemma centerText_witness :
  ((8 <= report.getDisplayWidth "abc")%Z ->
   report.centerText "abc" 8 = Some "abc")
  /\ ((report.getDisplayWidth "abc" < 8)%Z ->
      exists l r : nat,
        report.centerText "abc" 8
        = Some (strings.Repeat " " l ++ "abc" ++ strings.Repeat " " r)
        /\ Z.of_nat l = ((8 - report.getDisplayWidth "abc") / 2)%Z
        /\ (l <= r <= l + 1)%nat
        /\ report.getDisplayWidth
             (strings.Repeat " " l ++ "abc" ++ strings.Repeat " " r)
           = 8%Z).
Proof.
  apply (centerText_fills_the_width "abc" 8). vm_compute. discriminate.
Defined.

Lemma padded_width (content : string) (width : Z) :
  (width <= max_int)%Z ->
  (min_int <= width - report.getDisplayWidth content)%Z ->
  report.getDisplayWidth (content ++ report.getPadding content width)
  = Z.max width (report.getDisplayWidth content).
Proof.
  intros Hmax Hmin. rewrite getPadding_no_wrap by assumption.
  pose proof (count_from_nonneg content 0) as Hw.
  fold (utf8.RuneCountInString content) in Hw.
  unfold report.getDisplayWidth, utf8.RuneCountInString in *.
  rewrite count_before_ascii by (try lia; apply ascii_led_spaces).
  rewrite count_spaces. lia.
Qed.

Lemma prefix_append (a b : string) : prefix a (a ++ b) = true.
Proof.
  induction a as [|c a IH]; cbn [append prefix]; [now destruct b|].
  destruct (ascii_dec c c); [exact IH | congruence].
Qed.

(** X2: A content followed by its padding is as wide as the total width,
    or as the content when that is wider; it starts with the whole
    content: nothing is cut off. *)
Theorem padded_content_has_the_total_width (content : string) (width : Z) :
  (width <= max_int)%Z ->
  (min_int <= width - report.getDisplayWidth content)%Z ->
  report.getDisplayWidth (content ++ report.getPadding content width)
  = Z.max width (report.getDisplayWidth content)
  /\ prefix content (content ++ report.getPadding content width) = true
  /\ ((report.getDisplayWidth content <= width)%Z ->
      report.getDisplayWidth (content ++ report.getPadding content width)
      = width).
Proof.
  intros Hmax Hmin.
  pose proof (padded_width content width Hmax Hmin) as E.
  split; [exact E|]. split.
  - apply prefix_append.
  - intros Hw. rewrite E. lia.
Qed.

Lemma padded_content_witness :
  report.getDisplayWidth
    (utf8_of [0xF17C; 0x20; 0x4F; 0x53]
     ++ report.getPadding (utf8_of [0xF17C; 0x20; 0x4F; 0x53]) 58)
  = Z.max 58 (report.getDisplayWidth (utf8_of [0xF17C; 0x20; 0x4F; 0x53]))
  /\ prefix (utf8_of [0xF17C; 0x20; 0x4F; 0x53])
            (utf8_of [0xF17C; 0x20; 0x4F; 0x53]
             ++ report.getPadding (utf8_of [0xF17C; 0x20; 0x4F; 0x53]) 58)
     = true
  /\ ((report.getDisplayWidth (utf8_of [0xF17C; 0x20; 0x4F; 0x53]) <= 58)%Z ->
      report.getDisplayWidth
        (utf8_of [0xF17C; 0x20; 0x4F; 0x53]
         ++ report.getPadding (utf8_of [0xF17C; 0x20; 0x4F; 0x53]) 58)
      = 58%Z).
Proof.
  apply (padded_content_has_the_total_width
           (utf8_of [0xF17C; 0x20; 0x4F; 0x53]) 58).
  - vm_compute. discriminate.
  - vm_compute. discriminate.
Defined.

Lemma count_app_led (s t : string) :
  ascii_led t ->
  utf8.RuneCountInString (s ++ t)
  = (utf8.RuneCountInString s + utf8.RuneCountInString t)%Z.
Proof.
  intros Ht. unfold utf8.RuneCountInString.
  apply count_before_ascii; [assumption | lia].
Qed.

Lemma count_ascii_app (a s : string) :
  ascii_only a = true ->
  utf8.RuneCountInString (a ++ s)
  = (Z.of_nat (length a) + utf8.RuneCountInString s)%Z.
Proof. apply count_ascii_prefix. Qed.

Lemma count_metric_text (m : report.metric) :
  utf8.RuneCountInString (metric_text m)
  = (utf8.RuneCountInString (report.icon m) + 1
     + utf8.RuneCountInString (report.name m) + 2
     + utf8.RuneCountInString (report.valueStr m))%Z.
Proof.
  unfold metric_text.
  rewrite count_app_led by (cbn; lia).
  rewrite (count_ascii_app " ") by reflexivity.
  rewrite count_app_led by (cbn; lia).
  rewrite (count_ascii_app ": ") by reflexivity.
  cbn [length]. lia.
Qed.

Lemma width_plain_line (m : report.metric) :
  (utf8.RuneCountInString (metric_text m) <= max_int)%Z ->
  utf8.RuneCountInString (render_line true m)
  = (3 + Z.max 58 (utf8.RuneCountInString (metric_text m)))%Z.
Proof.
  intros Hfit. unfold render_line. fold (metric_text m).
  pose proof (count_from_nonneg (metric_text m) 0) as Hw.
  fold (utf8.RuneCountInString (metric_text m)) in Hw.
  rewrite (count_ascii_app " ") by reflexivity.
  rewrite <- append_assoc.
  rewrite count_app_led by (cbn; lia).
  fold (report.getDisplayWidth
          (metric_text m
           ++ report.getPadding (metric_text m) report.totalWidth)).
  rewrite padded_width;
    unfold report.getDisplayWidth, report.totalWidth, min_int, max_int in *;
    try lia.
  change (utf8.RuneCountInString (" " ++ str newline)) with 2%Z.
  cbn [length]. lia.
Qed.

Lemma plain_lines_width (ms : list report.metric) :
  Forall (fun m => (utf8.RuneCountInString (metric_text m) <= max_int)%Z)
         ms ->
  Forall2 (fun m line =>
             utf8.RuneCountInString line
             = (3 + Z.max 58 (utf8.RuneCountInString (metric_text m)))%Z)
          ms (map (render_line true) ms).
Proof.
  induction 1 as [|m ms Hm _ IH]; cbn [map]; constructor;
    auto using width_plain_line.
Qed.

Lemma short_lines_width (ms : list report.metric) (lines : list string) :
  Forall2 (fun m line =>
             utf8.RuneCountInString line
             = (3 + Z.max 58 (utf8.RuneCountInString (metric_text m)))%Z)
          ms lines ->
  Forall (fun m => (utf8.RuneCountInString (metric_text m) <= 58)%Z) ms ->
  Forall (fun line => utf8.RuneCountInString line = 61%Z) lines.
Proof.
  induction 1 as [|m line ms lines Hline _ IH]; intros Hshort;
    constructor; inversion Hshort; subst; [lia | auto].
Qed.

(** X3: The lines of the report are aligned when the colours are off:
    each line is written as it is rendered, and it is 58 columns of
    text and padding between two spaces and before the line end, and
    longer only when its text is.  Where no text is wider than 58
    columns, every line is 61 runes long. *)
Theorem report_lines_are_aligned_without_colours
  (info : report.SystemInfo) (out : list string) :
  fits_int info ->
  exists plain : list string,
    report.printSystemDetails info report.createColorSchemes
      (mkWorld true out)
    = Done tt (mkWorld true (out ++ plain))
    /\ Forall2 (fun m line =>
                  utf8.RuneCountInString line
                  = (3 + Z.max 58 (utf8.RuneCountInString (metric_text m)))%Z)
               (report.metrics info) plain
    /\ (Forall (fun m => (utf8.RuneCountInString (metric_text m) <= 58)%Z)
               (report.metrics info) ->
        Forall (fun line => utf8.RuneCountInString line = 61%Z) plain).
Proof.
  intros Hfit.
  exists (map (render_line true) (report.metrics info)).
  split; [apply printSystemDetails_output|].
  pose proof (plain_lines_width (report.metrics info) Hfit) as Hw.
  split; [exact Hw | exact (short_lines_width _ _ Hw)].
Qed.

Lemma report_lines_witness :
  exists plain : list string,
    report.printSystemDetails info_up report.createColorSchemes
      (mkWorld true [])
    = Done tt (mkWorld true ([] ++ plain))
    /\ Forall2 (fun m line =>
                  utf8.RuneCountInString line
                  = (3 + Z.max 58 (utf8.RuneCountInString (metric_text m)))%Z)
               (report.metrics info_up) plain
    /\ Forall (fun line => utf8.RuneCountInString line = 61%Z) plain.
Proof.
  destruct (report_lines_are_aligned_without_colours info_up [])
    as (plain & Hout & Hwidth & Hshort).
  - unfold fits_int. repeat constructor; vm_compute; discriminate.
  - exists plain. split; [exact Hout|]. split; [exact Hwidth|].
    apply Hshort. repeat constructor; vm_compute; discriminate.
Defined.

(* ===================================================================== *)
(** * Further properties: outcomes of the collection and of the run *)
(* ===================================================================== *)

Ltac fail_case :=
  left; do 2 eexists;
  split;
  [ solve [econstructor; eassumption]
  | apply collect_first_failure; solve [econstructor; eassumption] ].

(** The three outcomes of the collection. *)
Lemma collect_outcomes (h : Host) (w : World) :
  (exists label e,
     first_failure h label e
     /\ report.collectSystemInfo h w
        = Done (None, Some ("failed to get " ++ label ++ ": " ++ e)) w)
  \/ (~ some_query_fails h
      /\ (fst (cpu_Info h) = [] \/ fst (net_IOCounters h false) = [])
      /\ report.collectSystemInfo h w = Panic report.index_panic w)
  \/ (~ some_query_fails h
      /\ fst (cpu_Info h) <> [] /\ fst (net_IOCounters h false) <> []
      /\ exists info,
           report.collectSystemInfo h w = Done (Some info, None) w).
Proof.
  destruct (snd (host_Info h)) as [e|] eqn:E1;
    [fail_case|].
  destruct (snd (cpu_Info h)) as [e|] eqn:E2;
    [fail_case|].
  destruct (snd (cpu_Counts h true)) as [e|] eqn:E3;
    [fail_case|].
  destruct (snd (mem_VirtualMemory h)) as [e|] eqn:E4;
    [fail_case|].
  destruct (snd (disk_Usage h "/")) as [e|] eqn:E5;
    [fail_case|].
  destruct (snd (net_IOCounters h false)) as [e|] eqn:E6;
    [fail_case|].
  right.
  assert (Hok : ~ some_query_fails h).
  { unfold some_query_fails. rewrite E1, E2, E3, E4, E5, E6. tauto. }
  unfold report.collectSystemInfo.
  destruct (host_Info h) as [v1 o1], (cpu_Info h) as [v2 o2],
    (cpu_Counts h true) as [v3 o3], (mem_VirtualMemory h) as [v4 o4],
    (disk_Usage h "/") as [v5 o5], (net_IOCounters h false) as [v6 o6].
  cbn [fst snd] in *. subst.
  destruct v2 as [|c0 v2]; [left; auto|].
  destruct v6 as [|n0 v6]; [left; auto|].
  right. repeat split; try discriminate; try assumption.
  unfold ret. eauto.
Qed.

Lemma first_failure_fails (h : Host) (label e : string) :
  first_failure h label e -> some_query_fails h.
Proof.
  intros H. unfold some_query_fails.
  destruct H;
    repeat match goal with H : _ = Some _ |- _ => rewrite H; clear H end;
    repeat (first [left; discriminate | right]); discriminate.
Qed.

(** X4: [collectSystemInfo] indexes the CPU list and the network list
    without a test of their lengths: it panics exactly when all six
    queries succeed and one of the two lists is empty. *)
Theorem collection_panics_iff_a_list_is_empty (h : Host) (w : World) :
  (exists msg w', report.collectSystemInfo h w = Panic msg w')
  <-> (~ some_query_fails h
       /\ (fst (cpu_Info h) = [] \/ fst (net_IOCounters h false) = [])).
Proof.
  destruct (collect_outcomes h w)
    as [(label & e0 & Hf & Hc)
       | [(Hok & He & Hc) | (Hok & H1 & H2 & i & Hc)]];
    rewrite Hc; split.
  - intros (msg & w' & Hp). discriminate.
  - intros (Hok & _). exfalso. apply Hok.
    now apply (first_failure_fails h label e0).
  - auto.
  - eauto.
  - intros (msg & w' & Hp). discriminate.
  - intros (_ & [He | He]); contradiction.
Qed.

Lemma metrics_count (info : report.SystemInfo) (b : bool) :
  List.length (map (render_line b) (report.metrics info)) = 8%nat.
Proof. reflexivity. Qed.

Lemma failed_query_is_reported (h : Host) (noColor : bool) (w : World)
  (label e : string) :
  first_failure h label e ->
  report.collectSystemInfo h w
  = Done (None, Some ("failed to get " ++ label ++ ": " ++ e)) w
  /\ report.PrintSystemInfo h noColor w
     = Done (Some ("failed to collect system information: "
                   ++ "failed to get " ++ label ++ ": " ++ e))
            (mkWorld noColor (stdout w)).
Proof.
  intros Hf. split; [now apply collect_first_failure|].
  unfold report.PrintSystemInfo, bind, set_NoColor.
  rewrite (collect_first_failure h label e _ Hf). reflexivity.
Qed.

Lemma PrintSystemInfo_panics (h : Host) (noColor : bool) (w : World)
  (msg : string) :
  report.collectSystemInfo h w = Panic msg w ->
  report.PrintSystemInfo h noColor w
  = Panic msg (mkWorld noColor (stdout w)).
Proof.
  intros Hc. rewrite collect_keeps_world in Hc.
  unfold report.PrintSystemInfo, bind, set_NoColor.
  rewrite collect_keeps_world.
  destruct (report.collectSystemInfo h world0); try discriminate Hc.
  injection Hc as ->. reflexivity.
Qed.

Lemma PrintSystemInfo_outcomes (h : Host) (noColor : bool) (w : World) :
  NoColor (final_world (report.PrintSystemInfo h noColor w)) = noColor
  /\ ((exists lines : list string,
         List.length lines = 8%nat
         /\ report.PrintSystemInfo h noColor w
            = Done None (mkWorld noColor (stdout w ++ lines)))
      \/ (exists err,
            report.PrintSystemInfo h noColor w
            = Done (Some err) (mkWorld noColor (stdout w)))
      \/ report.PrintSystemInfo h noColor w
         = Panic report.index_panic (mkWorld noColor (stdout w))).
Proof.
  destruct (collect_outcomes h w)
    as [(label & e0 & Hf & Hc)
       | [(Hok & He & Hc) | (Hok & H1 & H2 & info & Hc)]].
  - destruct (failed_query_is_reported h noColor w label e0 Hf) as [_ Hp].
    rewrite Hp. split; [reflexivity|]. right; left. eauto.
  - assert (Hp : report.PrintSystemInfo h noColor w
                 = Panic report.index_panic (mkWorld noColor (stdout w))).
    { unfold report.PrintSystemInfo, bind, set_NoColor.
      rewrite collect_keeps_world. rewrite collect_keeps_world in Hc.
      destruct (report.collectSystemInfo h world0); try discriminate.
      injection Hc as ->. reflexivity. }
    rewrite Hp. split; [reflexivity|]. right; right. reflexivity.
  - rewrite (PrintSystemInfo_success h w w info noColor Hc).
    split; [reflexivity|]. left.
    exists (map (render_line noColor) (report.metrics info)).
    split; [apply metrics_count | reflexivity].
Qed.

(** X5: [PrintSystemInfo] leaves the colour switch as its argument says,
    whatever happens next, and the report is all or nothing: it appends
    the eight lines and returns no error; or it writes nothing and
    returns an error, or panics on an empty list.  The report is
    printed exactly when every query succeeds and neither list is
    empty. *)
Theorem report_is_all_or_nothing (h : Host) (noColor : bool) (w : World) :
  NoColor (final_world (report.PrintSystemInfo h noColor w)) = noColor
  /\ ((exists lines : list string,
         List.length lines = 8%nat
         /\ report.PrintSystemInfo h noColor w
            = Done None (mkWorld noColor (stdout w ++ lines)))
      \/ (exists err,
            report.PrintSystemInfo h noColor w
            = Done (Some err) (mkWorld noColor (stdout w)))
      \/ report.PrintSystemInfo h noColor w
         = Panic report.index_panic (mkWorld noColor (stdout w)))
  /\ ((exists w', report.PrintSystemInfo h noColor w = Done None w')
      <-> (~ some_query_fails h
           /\ fst (cpu_Info h) <> [] /\ fst (net_IOCounters h false) <> [])).
Proof.
  destruct (PrintSystemInfo_outcomes h noColor w) as [Hswitch Hout].
  split; [exact Hswitch|]. split; [exact Hout|].
  destruct (collect_outcomes h w)
    as [(label & e0 & Hf & Hc)
       | [(Hok & He & Hc) | (Hok & H1 & H2 & info & Hc)]].
  - destruct (failed_query_is_reported h noColor w label e0 Hf) as [_ Hp].
    rewrite Hp. split.
    + intros (w' & E). discriminate.
    + intros (Hok & _). exfalso. apply Hok.
      now apply (first_failure_fails h label e0).
  - split.
    + intros (w' & E).
      rewrite (PrintSystemInfo_panics h noColor w _ Hc) in E.
      discriminate E.
    + intros (_ & H1 & H2). destruct He; contradiction.
  - split; [auto|]. intros _.
    rewrite (PrintSystemInfo_success h w w info noColor Hc). eauto.
Qed.

Lemma PrintASCIIArt_entry (fs : Files) (filename : string) (w : World) :
  ascii_art.PrintASCIIArt fs filename w
  = Done tt (mkWorld (NoColor w) (stdout w ++ [art_entry fs filename])).
Proof.
  unfold ascii_art.PrintASCIIArt, art_entry.
  destruct (ReadFile fs _) as [data [err|]]; reflexivity.
Qed.

(** X6: A run of [runNeofetch]: unless the art is switched off, one entry
    is written for it, the art or the message that it could not be
    loaded, and the run goes on either way; then comes the report, all
    of it or nothing.  The run returns, or panics in the collection; it
    never ends the process itself, and with [--no-ascii] it does not
    depend on the files. *)
Theorem runNeofetch_prints_art_then_report
  (fs : Files) (h : Host) (noAscii noColors : bool) (w : World) :
  let art := if noAscii then [] else [art_entry fs "default"] in
  (exists lines : list string,
     (lines = [] \/ List.length lines = 8%nat)
     /\ (cmd.runNeofetch fs h noAscii noColors w
         = Done tt (mkWorld noColors ((stdout w ++ art) ++ lines))
         \/ (lines = []
             /\ cmd.runNeofetch fs h noAscii noColors w
                = Panic report.index_panic
                    (mkWorld noColors ((stdout w ++ art) ++ lines)))))
  /\ (forall fs' : Files,
        cmd.runNeofetch fs h true noColors w
        = cmd.runNeofetch fs' h true noColors w).
Proof.
  cbv zeta. split; [|reflexivity].
  assert (Hart :
    (if negb noAscii then ascii_art.PrintASCIIArt fs "default" else ret tt) w
    = Done tt (mkWorld (NoColor w)
                 (stdout w ++ (if noAscii then []
                               else [art_entry fs "default"])))).
  { destruct noAscii; cbn [negb].
    - unfold ret. rewrite app_nil_r. now destruct w.
    - apply PrintASCIIArt_entry. }
  destruct (runNeofetch_art fs h noAscii noColors w) as (w1 & Hw1 & Hrun).
  rewrite Hart in Hw1. injection Hw1 as <-.
  rewrite Hrun.
  destruct (PrintSystemInfo_outcomes h noColors
              (mkWorld (NoColor w)
                 (stdout w ++ (if noAscii then []
                               else [art_entry fs "default"]))))
    as [_ [(lines & Hlen & Hp) | [(err & Hp) | Hp]]];
    rewrite Hp; cbn [stdout].
  - exists lines. split; [now right|]. now left.
  - exists []. split; [now left|]. left. now rewrite app_nil_r.
  - exists []. split; [now left|]. right. split; [reflexivity|].
    now rewrite app_nil_r.
Qed.

(* ===================================================================== *)
(** * Further properties: the extraction rules *)
(* ===================================================================== *)

Lemma runes_ascii_byte (c : ascii) (s : string) :
  (byte_val c < 128)%Z ->
  utf8.runes_from 0 (String c s)
  = (byte_val c, str c) :: utf8.runes_from 0 s.
Proof.
  intros H. cbn [utf8.runes_from].
  rewrite decode_ascii_byte by assumption.
  cbn [substring Nat.sub]. now destruct s.
Qed.

Lemma fields_visible (w t cur : string) :
  visible w = true ->
  strings.fields_of cur (utf8.runes_from 0 (w ++ t))
  = strings.fields_of (cur ++ w) (utf8.runes_from 0 t).
Proof.
  revert cur. induction w as [|c w IH]; intros cur Hw.
  - now rewrite append_empty_r.
  - cbn [visible] in Hw.
    apply andb_true_iff in Hw as [Hc Hw].
    apply andb_true_iff in Hc as [Hc Hs].
    apply Z.ltb_lt in Hc. apply negb_true_iff in Hs.
    change (String c w ++ t) with (String c (w ++ t)).
    rewrite runes_ascii_byte by assumption.
    cbn [strings.fields_of]. rewrite Hs, IH by assumption.
    rewrite append_assoc. reflexivity.
Qed.

Lemma length_app_word (cur w : string) :
  w <> "" -> (length (cur ++ w) =? 0)%nat = false.
Proof.
  intros Hw. apply Nat.eqb_neq. destruct w as [|c w]; [congruence|].
  induction cur as [|x cur IH]; cbn; lia.
Qed.

Lemma fields_word_end (w cur : string) :
  word w ->
  strings.fields_of cur (utf8.runes_from 0 w) = [cur ++ w].
Proof.
  intros [Hne Hv]. rewrite <- (append_empty_r w) at 1.
  rewrite fields_visible by assumption.
  cbn [utf8.runes_from strings.fields_of].
  now rewrite length_app_word.
Qed.

Lemma fields_word_space (w t cur : string) :
  word w ->
  strings.fields_of cur (utf8.runes_from 0 (w ++ String space t))
  = (cur ++ w) :: strings.fields_of "" (utf8.runes_from 0 t).
Proof.
  intros [Hne Hv]. rewrite fields_visible by assumption.
  rewrite runes_ascii_byte by (vm_compute; reflexivity).
  cbn [strings.fields_of].
  change (unicode.IsSpace (byte_val space)) with true. cbv iota.
  now rewrite length_app_word.
Qed.

(** The first fields of an output that starts with a word. *)
Lemma fields_first (w rest : string) :
  word w -> ends_field rest ->
  exists others, strings.Fields (w ++ rest) = w :: others.
Proof.
  intros Hw [-> | [rest' ->]]; unfold strings.Fields, utf8.runes.
  - rewrite append_empty_r, fields_word_end by assumption. eauto.
  - rewrite fields_word_space by assumption. eauto.
Qed.

Lemma fields_first_two (w1 w2 rest : string) :
  word w1 -> word w2 -> ends_field rest ->
  exists others,
    strings.Fields (w1 ++ String space (w2 ++ rest)) = w1 :: w2 :: others.
Proof.
  intros H1 H2 Hr. unfold strings.Fields, utf8.runes.
  rewrite fields_word_space by assumption. cbn [append].
  destruct (fields_first w2 rest H2 Hr) as [others E].
  unfold strings.Fields, utf8.runes in E. rewrite E. eauto.
Qed.

(** X7: The rule of python, ruby, go and rustc returns the second word of
    the output, whatever the first one is: the version for
    [Python 3.11.4], and for the output of [go version], which reads
    [go version go1.21.0 linux/amd64], the word [version]. *)
Theorem second_field_rule (command w1 w2 rest : string) :
  is_command command ["python"; "ruby"; "go"; "rustc"] = true ->
  word w1 -> word w2 -> ends_field rest ->
  processVersionString command (w1 ++ String space (w2 ++ rest)) = w2
  /\ (forall release : string,
        processVersionString "go" ("go version " ++ release) = "version").
Proof.
  intros Hc H1 H2 Hr. split.
  - unfold processVersionString. rewrite Hc.
    destruct (fields_first_two w1 w2 rest H1 H2 Hr) as [others ->].
    reflexivity.
  - intros release. unfold processVersionString.
    change (is_command "go" ["python"; "ruby"; "go"; "rustc"]) with true.
    cbv iota.
    destruct (fields_first_two "go" "version" (String space release))
      as [others E].
    + split; [discriminate | reflexivity].
    + split; [discriminate | reflexivity].
    + right. eauto.
    + change ("go version " ++ release)
        with ("go" ++ String space ("version" ++ String space release)).
      rewrite E. reflexivity.
Qed.

Lemma second_field_witness :
  processVersionString "python"
    ("Python" ++ String space ("3.11.4" ++ "")) = "3.11.4"
  /\ (forall release : string,
        processVersionString "go" ("go version " ++ release) = "version").
Proof.
  apply (second_field_rule "python" "Python" "3.11.4" "").
  - reflexivity.
  - split; [discriminate | reflexivity].
  - split; [discriminate | reflexivity].
  - now left.
Defined.

(** X8: The rule of php returns the first word of the output: for what
    [php --version] prints, [PHP 8.1.2 (cli) ...], that is the name
    [PHP]. *)
Theorem php_rule_returns_the_first_word (w rest : string) :
  word w -> ends_field rest ->
  processVersionString "php" (w ++ rest) = w.
Proof.
  intros Hw Hr. unfold processVersionString.
  change (is_command "php" ["python"; "ruby"; "go"; "rustc"]) with false.
  change ("php" =? "node") with false. change ("php" =? "java") with false.
  change ("php" =? "php") with true. cbv iota.
  destruct (fields_first w rest Hw Hr) as [others ->]. reflexivity.
Qed.

Lemma php_first_word_witness :
  processVersionString "php" ("PHP" ++ " 8.1.2 (cli) (built: Jan 1 2022)")
  = "PHP".
Proof.
  apply (php_rule_returns_the_first_word "PHP").
  - split; [discriminate | reflexivity].
  - right. eauto.
Defined.

Lemma substring_whole (s : string) : substring 0 (length s) s = s.
Proof. induction s as [|c s IH]; cbn; congruence. Qed.

(** X9: The rule of node takes one leading [v] off and nothing else: an
    output without it is returned as it is, and of two leading [v]s one
    is left. *)
Theorem node_rule_strips_one_v (version : string) :
  processVersionString "node" ("v" ++ version) = version
  /\ (strings.HasPrefix version "v" = false ->
      processVersionString "node" version = version).
Proof.
  unfold processVersionString.
  change (is_command "node" ["python"; "ruby"; "go"; "rustc"]) with false.
  change ("node" =? "node") with true. cbv iota.
  unfold strings.TrimPrefix. split.
  - change (strings.HasPrefix ("v" ++ version) "v")
      with (prefix "" version).
    replace (prefix "" version) with true by now destruct version.
    cbn [append length Nat.sub substring].
    rewrite Nat.sub_0_r. apply substring_whole.
  - intros ->. reflexivity.
Qed.

Lemma node_rule_witness :
  processVersionString "node" ("v" ++ "18.16.0") = "18.16.0"
  /\ (strings.HasPrefix "18.16.0" "v" = false ->
      processVersionString "node" "18.16.0" = "18.16.0").
Proof. apply (node_rule_strips_one_v "18.16.0"). Defined.

(** X10: A probe that runs but prints nothing, or white space only, is a
    detection miss like a failed one: whatever the command, the version
    is empty and no entry is listed. *)
Theorem blank_output_is_a_miss (m : Machine) (t : ToolSpec) :
  In t tool_specs ->
  exec_err (probe_result m t) = None ->
  strings.TrimSpace (exec_output (probe_result m t)) = "" ->
  (forall command, processVersionString command "" = "")
  /\ extracted m t = ""
  /\ ~ In (tool_name t) (map Name (GetProgrammingLanguages m)).
Proof.
  intros Ht Hok Hblank.
  assert (Hp : forall command, processVersionString command "" = "").
  { intros command. unfold processVersionString.
    destruct (is_command command _); [reflexivity|].
    destruct (command =? "node"); [reflexivity|].
    destruct (command =? "java"); [reflexivity|].
    destruct (command =? "php"); reflexivity. }
  assert (He : extracted m t = "").
  { rewrite runCommand_success by assumption. rewrite Hblank. apply Hp. }
  split; [exact Hp|]. split; [exact He|].
  rewrite detected_entries, map_map. intros Hin.
  apply in_map_iff in Hin as (t' & Hname & Hin).
  apply filter_In in Hin as [Hin Hne].
  assert (t' = t) as ->.
  { simpl in Ht, Hin.
    repeat (destruct Ht as [<- | Ht]; [|]);
      repeat (destruct Hin as [<- | Hin];
              [first [reflexivity | discriminate Hname]|]);
      contradiction. }
  rewrite He in Hne. discriminate.
Qed.

Lemma blank_output_witness :
  (forall command, processVersionString command "" = "")
  /\ extracted machine_blank_python python_tool = ""
  /\ ~ In (tool_name python_tool)
          (map Name (GetProgrammingLanguages machine_blank_python)).
Proof.
  apply (blank_output_is_a_miss machine_blank_python python_tool).
  - simpl. tauto.
  - reflexivity.
  - vm_compute. reflexivity.
Defined.

(** X11: The list of detected languages never names a language twice, has at
    most seven entries, and each entry carries the icon configured for
    its name. *)
Theorem detected_languages_are_distinct (m : Machine) :
  NoDup (map Name (GetProgrammingLanguages m))
  /\ (List.length (GetProgrammingLanguages m) <= 7)%nat
  /\ Forall (fun l =>
               exists t, In t tool_specs
                         /\ Name l = tool_name t /\ Icon l = tool_icon t
                         /\ Version l = extracted m t)
            (GetProgrammingLanguages m).
Proof.
  rewrite detected_entries, map_map. repeat split.
  - change (fun x => Name (entry_of m x)) with tool_name.
    set (p := fun t => negb (extracted m t =? "")).
    assert (Hnd : NoDup (map tool_name tool_specs)).
    { cbn. repeat constructor; cbn; intuition discriminate. }
    revert Hnd. generalize tool_specs as l.
    induction l as [|t l IH]; intros Hnd; cbn [filter map].
    + constructor.
    + cbn [map] in Hnd. inversion Hnd as [|? ? Hnotin Hnd']; subst.
      destruct (p t); [|now apply IH].
      cbn [map]. constructor; [|now apply IH].
      intros Hin. apply Hnotin.
      apply in_map_iff in Hin as (t' & E & Hin).
      apply filter_In in Hin as [Hin _].
      rewrite <- E. now apply in_map.
  - rewrite length_map.
    etransitivity; [apply filter_length_le|]. cbn. lia.
  - apply Forall_forall. intros l Hl.
    apply in_map_iff in Hl as (t & <- & Ht).
    apply filter_In in Ht as [Ht _]. exists t. auto.
Qed.

(* ===================================================================== *)
(** * Further properties: coloured printing *)
(* ===================================================================== *)

(** X12: [PrintColored] writes the text as it is, with a line end added
    unless it has one; with the colour switch on it writes the sequence
    of the colour before it (green, blue or red for these names, white
    for every other name) and the reset after it, and what is seen is
    the same text; it changes nothing else and always returns. *)
Theorem PrintColored_writes_the_text (text colorType : string) (w : World) :
  escape_free text ->
  exists written : list string,
    utils.PrintColored text colorType w
    = Done tt (mkWorld (NoColor w) (stdout w ++ written))
    /\ written
       = (if NoColor w then [with_line_end text]
          else [str escape ++ "[" ++ fmt.verb_d (attribute_of colorType)
                ++ "m";
                with_line_end text;
                str escape ++ "[0m"])
    /\ strip_sgr false (concat_strings written) = with_line_end text.
Proof.
  intros Hclean.
  assert (Hline : escape_free (with_line_end text)).
  { unfold with_line_end. destruct (strings.HasSuffix _ _); [assumption|].
    now apply escape_free_app. }
  assert (Hp : forall p,
    color.colorPrint text p w
    = Done tt (mkWorld (NoColor w)
                 (stdout w ++
                  (if NoColor w then [with_line_end text]
                   else [str escape ++ "[" ++ fmt.verb_d p ++ "m";
                         with_line_end text; str escape ++ "[0m"])))).
  { intros p. unfold color.colorPrint, color.Print. fold (with_line_end text).
    destruct (NoColor w) eqn:E.
    - unfold print. now rewrite E.
    - unfold bind, print. cbn [NoColor stdout]. rewrite E.
      rewrite <- !app_assoc. reflexivity. }
  eexists. split; [|split; [reflexivity|]].
  - unfold utils.PrintColored, attribute_of, utils.Green, utils.Blue,
      utils.Red, color.Green, color.Blue, color.Red, color.White.
    destruct (colorType =? "green"); [apply Hp|].
    destruct (colorType =? "blue"); [apply Hp|].
    destruct (colorType =? "red"); apply Hp.
  - destruct (NoColor w); cbn [concat_strings].
    + rewrite append_empty_r. now apply strip_clean_all.
    + assert (Hseq : forall x,
        strip_sgr false
          ((str escape ++ "[" ++ fmt.verb_d (attribute_of colorType) ++ "m")
           ++ x) = strip_sgr false x).
      { intros x. unfold attribute_of.
        destruct (colorType =? "green"); [vm_compute; reflexivity|].
        destruct (colorType =? "blue"); [vm_compute; reflexivity|].
        destruct (colorType =? "red"); vm_compute; reflexivity. }
      rewrite Hseq. rewrite strip_clean by assumption.
      rewrite append_empty_r.
      replace (strip_sgr false (str escape ++ "[0m")) with ""
        by (vm_compute; reflexivity).
      rewrite ?append_empty_r. reflexivity.
Qed.

Lemma PrintColored_witness :
  exists written : list string,
    utils.PrintColored "ready" "purple" world0
    = Done tt (mkWorld (NoColor world0) (stdout world0 ++ written))
    /\ written
       = (if NoColor world0 then [with_line_end "ready"]
          else [str escape ++ "[" ++ fmt.verb_d (attribute_of "purple")
                ++ "m";
                with_line_end "ready";
                str escape ++ "[0m"])
    /\ strip_sgr false (concat_strings written) = with_line_end "ready".
Proof.
  apply (PrintColored_writes_the_text "ready" "purple" world0). reflexivity.
Defined.

Lemma div_eucl_pair (a b : Z) : Z.div_eucl a b = ((a / b)%Z, (a mod b)%Z).
Proof. unfold Z.div, Z.modulo. now destruct (Z.div_eucl a b). Qed.

Lemma fexp_normal (e : Z) :
  (-1021 <= e)%Z -> fexp float64.prec float64.emax e = (e - 53)%Z.
Proof.
  intros H. unfold fexp, emin, float64.prec, float64.emax. lia.
Qed.

Lemma div_by_power_of_two (mx : positive) (ex ey : Z) :
  digits2_pos mx = 53%positive ->
  (-1021 <= ex - ey)%Z -> (ex - ey <= 1023)%Z ->
  float64.div (S754_finite false mx ex)
              (S754_finite false 4503599627370496 ey)
  = S754_finite false mx (ex - ey - 52).
Proof.
  intros Hd Hlo Hhi.
  unfold float64.div, SFdiv, SFdiv_core_binary.
  cbn [Zdigits2]. rewrite Hd.
  change (digits2_pos 4503599627370496) with 53%positive.
  replace (Z.pos 53 + ex - (Z.pos 53 + ey))%Z with (ex - ey)%Z by lia.
  rewrite fexp_normal by lia.
  rewrite Z.min_l by lia.
  replace (ex - ey - (ex - ey - 53))%Z with 53%Z by lia.
  change (IntDef.Z.shiftl (Z.pos mx) 53) with (Z.shiftl (Z.pos mx) 53).
  change (IntDef.Z.div_eucl (Z.shiftl (Z.pos mx) 53) 4503599627370496)
    with (Z.div_eucl (Z.shiftl (Z.pos mx) 53) 4503599627370496).
  rewrite div_eucl_pair, Z.shiftl_mul_pow2 by lia.
  replace (Z.pos mx * 2 ^ 53)%Z with (Z.pos mx~0 * 4503599627370496)%Z by lia.
  rewrite Z.div_mul, Z.mod_mul by lia.
  change (new_location 4503599627370496 0) with loc_Exact.
  cbn [xorb].
  unfold binary_round_aux, shr_fexp.
  cbn [Zdigits2 digits2_pos]. rewrite Hd.
  change (Z.pos (PosDef.Pos.succ 53)) with 54%Z.
  rewrite fexp_normal by lia.
  replace (54 + (ex - ey - 53) - 53 - (ex - ey - 53))%Z with 1%Z by lia.
  cbn [shr shr_record_of_loc iter_pos shr_1 shr_m loc_of_shr_record
       round_nearest_even Zdigits2].
  cbn [orb]. cbn [round_nearest_even Zdigits2].
  rewrite Hd, fexp_normal by lia.
  replace (Z.pos 53 + (ex - ey - 53 + 1) - 53 - (ex - ey - 53 + 1))%Z
    with 0%Z by lia.
  cbn [shr shr_m].
  unfold float64.emax, float64.prec.
  destruct (Z.leb_spec (ex - ey - 53 + 1) (1024 - 53)); [|lia].
  f_equal. lia.
Qed.

Lemma digits2_pos_bound (p : positive) (k : Z) :
  (Z.pos p < 2 ^ k)%Z -> (0 <= k)%Z -> (Z.pos (digits2_pos p) <= k)%Z.
Proof.
  revert k. induction p as [p IH|p IH|]; intros k Hp Hk; cbn [digits2_pos].
  - assert (0 < k)%Z by (destruct (Z.eq_dec k 0) as [->|]; [cbn in Hp|]; lia).
    replace k with (Z.succ (k - 1)) in Hp by lia.
    rewrite Z.pow_succ_r in Hp by lia.
    specialize (IH (k - 1)%Z). lia.
  - assert (0 < k)%Z by (destruct (Z.eq_dec k 0) as [->|]; [cbn in Hp|]; lia).
    replace k with (Z.succ (k - 1)) in Hp by lia.
    rewrite Z.pow_succ_r in Hp by lia.
    specialize (IH (k - 1)%Z). lia.
  - destruct (Z.eq_dec k 0) as [->|]; [cbn in Hp|]; lia.
Qed.

Lemma iter_xO (p n : positive) :
  Z.pos (Pos.iter xO p n) = (Z.pos p * 2 ^ Z.pos n)%Z
  /\ digits2_pos (Pos.iter xO p n) = (digits2_pos p + n)%positive.
Proof.
  induction n as [|n [IH1 IH2]] using Pos.peano_ind.
  - cbn [Pos.iter digits2_pos]. split; lia.
  - rewrite Pos.iter_succ. cbn [digits2_pos]. rewrite IH2.
    rewrite Pos2Z.inj_succ, Z.pow_succ_r by lia. split; lia.
Qed.

(** A mantissa of 53 bits with an exponent in range is a float as it
    is. *)
Lemma round_canonical (s : bool) (m : positive) (e : Z) :
  digits2_pos m = 53%positive -> (-1074 <= e <= 971)%Z ->
  binary_round_aux float64.prec float64.emax s (Z.pos m) e loc_Exact
  = S754_finite s m e.
Proof.
  intros Hd He. unfold binary_round_aux, shr_fexp.
  cbn [Zdigits2]. rewrite Hd, fexp_normal by lia.
  replace (Z.pos 53 + e - 53 - e)%Z with 0%Z by lia.
  cbn [shr shr_record_of_loc shr_m loc_of_shr_record orb
       round_nearest_even Zdigits2].
  rewrite Hd, fexp_normal by lia.
  replace (Z.pos 53 + e - 53 - e)%Z with 0%Z by lia.
  cbn [shr shr_m]. unfold float64.emax, float64.prec.
  destruct (Z.leb_spec e (1024 - 53)); [reflexivity | lia].
Qed.

(** The conversion of a positive integer below 2^53 is exact. *)
Lemma of_int_exact (p : positive) :
  (Z.pos p < 2 ^ 53)%Z ->
  exists (m : positive) (e : Z),
    float64.of_int (Z.pos p) = S754_finite false m e
    /\ digits2_pos m = 53%positive /\ (-52 <= e <= 0)%Z
    /\ Z.pos m = (Z.pos p * 2 ^ (- e))%Z.
Proof.
  intros Hp. pose proof (digits2_pos_bound p 53 Hp) as Hd.
  unfold float64.of_int, binary_normalize, binary_round, shl_align.
  rewrite fexp_normal by lia.
  destruct (Z.pos (digits2_pos p) + 0 - 53 - 0)%Z as [|k|k] eqn:E; try lia.
  - exists p, 0%Z. rewrite round_canonical by lia.
    repeat split; try lia.
  - destruct (iter_xO p k) as [Hv Hdig].
    change (PosDef.Pos.iter xO p k) with (Pos.iter xO p k).
    exists (Pos.iter xO p k), (Z.pos (digits2_pos p) + 0 - 53)%Z.
    rewrite round_canonical by lia.
    repeat split; try lia.
    rewrite Hv. f_equal. f_equal. lia.
Qed.

Lemma round_half_even_scale (a b c : Z) :
  (0 < b)%Z -> (0 < c)%Z ->
  float64.round_half_even (a * c) (b * c) = float64.round_half_even a b.
Proof.
  intros Hb Hc. unfold float64.round_half_even.
  rewrite Z.div_mul_cancel_r, Z.mul_mod_distr_r by lia.
  replace (2 * (a mod b * c))%Z with (2 * (a mod b) * c)%Z by lia.
  rewrite <- (Zmult_compare_compat_r (2 * (a mod b)) b c) by lia.
  reflexivity.
Qed.

(** The quotient of an integer below 2^53 by a power of two is exact,
    and [%.2f] shows it rounded to the nearest hundredth, a tie going
    to the even one. *)
Lemma quotient_by_power_of_two (n k : Z) :
  (0 <= n < 2 ^ 53)%Z -> (1 <= k <= 60)%Z ->
  float64.of_int (2 ^ k) = S754_finite false 4503599627370496 (k - 52) ->
  exact_quotient (float64.div (float64.of_int n) (float64.of_int (2 ^ k)))
                 n (2 ^ k)
  /\ fmt.verb_2f (float64.div (float64.of_int n) (float64.of_int (2 ^ k)))
     = two_decimals (float64.round_half_even (100 * n) (2 ^ k)).
Proof.
  intros Hn Hk Hpow. rewrite Hpow.
  assert (Hk2 : (0 < 2 ^ k)%Z) by (apply Z.pow_pos_nonneg; lia).
  destruct n as [|p|p]; [| |lia].
  - split; [reflexivity|].
    change (fmt.verb_2f _) with (two_decimals 0).
    unfold float64.round_half_even.
    rewrite Z.div_0_l, Z.mod_0_l by lia.
    change (2 * 0)%Z with 0%Z.
    destruct (Z.compare_spec 0 (2 ^ k)); try lia. reflexivity.
  - destruct (of_int_exact p) as (m & e & -> & Hd & He & Hm); [lia|].
    rewrite div_by_power_of_two by (try assumption; lia).
    assert (Hc : (0 < 2 ^ (- e))%Z) by (apply Z.pow_pos_nonneg; lia).
    split.
    + unfold exact_quotient. split; [lia|].
      replace (- (e - (k - 52) - 52))%Z with (k + - e)%Z by lia.
      rewrite Z.pow_add_r by lia. rewrite Hm. lia.
    + unfold fmt.verb_2f, float64.FormatFloat_f, float64.scaled.
      destruct (Z.leb_spec 0 (e - (k - 52) - 52)); [lia|].
      change (10 ^ Z.of_nat 2)%Z with 100%Z.
      replace (- (e - (k - 52) - 52))%Z with (k + - e)%Z by lia.
      rewrite Z.pow_add_r by lia. rewrite Hm.
      replace (Z.pos p * 2 ^ (- e) * 100)%Z
        with (100 * Z.pos p * 2 ^ (- e))%Z by lia.
      rewrite round_half_even_scale by lia.
      reflexivity.
Qed.

(** X13: The sizes of the report carry no floating-point error: for a total
    below 2^53 bytes the memory and the disk in GB are exactly the
    total divided by 2^30, and the report shows that quotient rounded to
    the nearest hundredth (a tie to the even one); so it is with the
    network counters in MB. *)
Theorem sizes_are_exact_and_shown_rounded
  (h : Host) (w w' : World) (info : report.SystemInfo) :
  report.collectSystemInfo h w = Done (Some info, None) w' ->
  let memTotal := mem.Total (fst (mem_VirtualMemory h)) in
  let diskTotal := disk.Total (fst (disk_Usage h "/")) in
  ((0 <= memTotal < 2 ^ 53)%Z ->
   exact_quotient (report.Memory info) memTotal GiB
   /\ shown info "Memory"
      = Some (two_decimals (hundredths memTotal GiB) ++ " GB"))
  /\ ((0 <= diskTotal < 2 ^ 53)%Z ->
      exact_quotient (report.Disk info) diskTotal GiB
      /\ shown info "Disk"
         = Some (two_decimals (hundredths diskTotal GiB) ++ " GB"))
  /\ (forall net0 nets,
        fst (net_IOCounters h false) = net0 :: nets ->
        (0 <= net.BytesSent net0 < 2 ^ 53)%Z ->
        (0 <= net.BytesRecv net0 < 2 ^ 53)%Z ->
        exact_quotient (report.NetworkSent info) (net.BytesSent net0) MiB
        /\ exact_quotient (report.NetworkRecv info) (net.BytesRecv net0) MiB
        /\ shown info "Network"
           = Some (report.arrow_up
                   ++ two_decimals (hundredths (net.BytesSent net0) MiB)
                   ++ " MB | " ++ report.arrow_down
                   ++ two_decimals (hundredths (net.BytesRecv net0) MiB)
                   ++ " MB")).
Proof.
  intros H.
  apply collect_success in H as (_ & c0 & cs & n0 & ns & _ & Hn & ->).
  cbv zeta.
  split; [|split].
  - intros Hm. split.
    + apply (quotient_by_power_of_two _ 30); [assumption | lia | reflexivity].
    + unfold shown, hundredths, GiB, MiB.
      rewrite <- (proj2 (quotient_by_power_of_two _ 30 Hm
                           ltac:(lia) eq_refl)).
      reflexivity.
  - intros Hd. split.
    + apply (quotient_by_power_of_two _ 30); [assumption | lia | reflexivity].
    + unfold shown, hundredths, GiB, MiB.
      rewrite <- (proj2 (quotient_by_power_of_two _ 30 Hd
                           ltac:(lia) eq_refl)).
      reflexivity.
  - intros net0 nets E Hs Hr. rewrite Hn in E. injection E as <- _.
    split; [|split].
    + apply (quotient_by_power_of_two _ 20); [assumption | lia | reflexivity].
    + apply (quotient_by_power_of_two _ 20); [assumption | lia | reflexivity].
    + unfold shown, hundredths, GiB, MiB.
      rewrite <- (proj2 (quotient_by_power_of_two _ 20 Hs
                           ltac:(lia) eq_refl)).
      rewrite <- (proj2 (quotient_by_power_of_two _ 20 Hr
                           ltac:(lia) eq_refl)).
      reflexivity.
Qed.

Lemma sizes_witness :
  let memTotal := mem.Total (fst (mem_VirtualMemory (host_up 5400))) in
  let diskTotal := disk.Total (fst (disk_Usage (host_up 5400) "/")) in
  ((0 <= memTotal < 2 ^ 53)%Z ->
   exact_quotient (report.Memory info_up) memTotal GiB
   /\ shown info_up "Memory"
      = Some (two_decimals (hundredths memTotal GiB) ++ " GB"))
  /\ ((0 <= diskTotal < 2 ^ 53)%Z ->
      exact_quotient (report.Disk info_up) diskTotal GiB
      /\ shown info_up "Disk"
         = Some (two_decimals (hundredths diskTotal GiB) ++ " GB"))
  /\ (forall net0 nets,
        fst (net_IOCounters (host_up 5400) false) = net0 :: nets ->
        (0 <= net.BytesSent net0 < 2 ^ 53)%Z ->
        (0 <= net.BytesRecv net0 < 2 ^ 53)%Z ->
        exact_quotient (report.NetworkSent info_up) (net.BytesSent net0) MiB
        /\ exact_quotient (report.NetworkRecv info_up)
                          (net.BytesRecv net0) MiB
        /\ shown info_up "Network"
           = Some (report.arrow_up
                   ++ two_decimals (hundredths (net.BytesSent net0) MiB)
                   ++ " MB | " ++ report.arrow_down
                   ++ two_decimals (hundredths (net.BytesRecv net0) MiB)
                   ++ " MB")).
Proof.
  apply (sizes_are_exact_and_shown_rounded
           (host_up 5400) world0 world0 info_up).
  reflexivity.
Defined.

(* ===================================================================== *)
(** * Further properties: the whole run without colours *)
(* ===================================================================== *)

Lemma collected_info_clean (h : Host) (w w' : World)
  (info : report.SystemInfo) :
  clean_host h ->
  report.collectSystemInfo h w = Done (Some info, None) w' ->
  clean_info info.
Proof.
  intros (Hp & Hv & Hk & Hh & Hc) H.
  apply collect_success in H as (_ & c0 & cs & n0 & ns & Ec & _ & ->).
  rewrite Ec in Hc. inversion Hc as [|? ? Hc0 _]; subst.
  unfold clean_info. cbn [report.Platform report.Kernel report.Hostname
                          report.CPU].
  repeat split; try assumption.
  - repeat (apply escape_free_app; [assumption || reflexivity|]). assumption.
  - apply escape_free_app; [assumption|].
    apply escape_free_app; [reflexivity|].
    apply escape_free_app; [apply escape_free_itoa | reflexivity].
Qed.

Lemma PrintSystemInfo_stdout (h : Host) (noColor : bool) (w : World) :
  stdout (final_world (report.PrintSystemInfo h noColor w)) = stdout w
  \/ exists info,
       report.collectSystemInfo h w = Done (Some info, None) w
       /\ stdout (final_world (report.PrintSystemInfo h noColor w))
          = (stdout w ++ map (render_line noColor) (report.metrics info))%list.
Proof.
  destruct (collect_outcomes h w)
    as [(label & e0 & Hf & Hc)
       | [(Hok & He & Hc) | (Hok & H1 & H2 & info & Hc)]].
  - left. destruct (failed_query_is_reported h noColor w label e0 Hf)
      as [_ ->]. reflexivity.
  - left. unfold report.PrintSystemInfo, bind, set_NoColor.
    rewrite collect_keeps_world. rewrite collect_keeps_world in Hc.
    destruct (report.collectSystemInfo h world0); try discriminate.
    reflexivity.
  - right. exists info. split; [assumption|].
    rewrite (PrintSystemInfo_success h w w info noColor Hc). reflexivity.
Qed.

Lemma Execute_stdout (fs : Files) (h : Host) (noAscii noColors : bool)
  (w : World) :
  let w1 := mkWorld (NoColor w)
              (stdout w ++ (if noAscii then []
                            else [art_entry fs "default"])) in
  stdout (final_world
            (cmd.Execute fs h (cmd.Invoke noAscii noColors) w))
  = stdout (final_world (report.PrintSystemInfo h noColors w1)).
Proof.
  cbv zeta.
  assert (Hart :
    (if negb noAscii then ascii_art.PrintASCIIArt fs "default" else ret tt) w
    = Done tt (mkWorld (NoColor w)
                 (stdout w ++ (if noAscii then []
                               else [art_entry fs "default"])))).
  { destruct noAscii; cbn [negb].
    - unfold ret. rewrite app_nil_r. now destruct w.
    - apply PrintASCIIArt_entry. }
  destruct (runNeofetch_art fs h noAscii noColors w) as (w1 & Hw1 & Hrun).
  rewrite Hart in Hw1. injection Hw1 as <-.
  unfold cmd.Execute, cmd.rootCmd_Execute, bind. rewrite Hrun.
  destruct (report.PrintSystemInfo h noColors _) as [r w2|msg w2|code w2];
    reflexivity.
Qed.

(** X14: With [--no-colors] the run writes no escape byte of its own: when
    the strings of the host, and the art if it is printed, hold none,
    neither does anything the command has written when it ends,
    however it ends. *)
Theorem no_colors_run_writes_no_escape
  (fs : Files) (h : Host) (noAscii : bool) (w : World) :
  clean_host h ->
  (noAscii = false -> escape_free (art_entry fs "default")) ->
  Forall escape_free (stdout w) ->
  Forall escape_free
    (stdout (final_world (cmd.Execute fs h (cmd.Invoke noAscii true) w))).
Proof.
  intros Hhost Hart Hout.
  rewrite Execute_stdout.
  assert (Hw1 : Forall escape_free
                  (stdout w ++ (if noAscii then []
                                else [art_entry fs "default"]))).
  { apply Forall_app. split; [assumption|].
    destruct noAscii; [constructor|]. constructor; [auto | constructor]. }
  destruct (PrintSystemInfo_stdout h true
              (mkWorld (NoColor w)
                 (stdout w ++ (if noAscii then []
                               else [art_entry fs "default"]))))
    as [-> | (info & Hc & ->)]; cbn [stdout].
  - exact Hw1.
  - apply Forall_app. split; [exact Hw1|].
    pose proof (collected_info_clean h _ _ info Hhost Hc) as Hclean.
    pose proof (metrics_clean info Hclean) as Hm.
    induction Hm as [|m l Hm Hl IH]; cbn [map]; constructor;
      auto using plain_line_clean.
Qed.

Lemma no_colors_run_witness :
  Forall escape_free
    (stdout (final_world
               (cmd.Execute files_none (host_up 5400)
                  (cmd.Invoke false true) world0))).
Proof.
  apply (no_colors_run_writes_no_escape files_none (host_up 5400)
           false world0).
  - repeat split. repeat constructor.
  - intros _. reflexivity.
  - constructor.
Defined.

(* ===================================================================== *)
(** * Further properties: a detection from the output to the list *)
(* ===================================================================== *)

Lemma runes_ascii_only (a t : string) :
  ascii_only a = true ->
  utf8.runes_from 0 (a ++ t) = (ascii_runes a ++ utf8.runes_from 0 t)%list.
Proof.
  induction a as [|c a IH]; intros Ha; [reflexivity|].
  cbn [ascii_only] in Ha. apply andb_true_iff in Ha as [Hc Ha].
  apply Z.ltb_lt in Hc.
  change (String c a ++ t) with (String c (a ++ t)).
  rewrite runes_ascii_byte by assumption. cbn [ascii_runes app].
  now rewrite IH.
Qed.

Lemma ascii_only_app (a b : string) :
  ascii_only a = true -> ascii_only b = true -> ascii_only (a ++ b) = true.
Proof.
  induction a as [|c a IH]; intros Ha Hb; [assumption|].
  cbn [ascii_only append] in *. apply andb_true_iff in Ha as [Hc Ha].
  now rewrite Hc, IH.
Qed.

Lemma visible_ascii_only (a : string) :
  visible a = true -> ascii_only a = true.
Proof.
  induction a as [|c a IH]; intros Ha; [reflexivity|].
  cbn [visible ascii_only] in *.
  apply andb_true_iff in Ha as [Hc Ha].
  apply andb_true_iff in Hc as [Hc _]. now rewrite Hc, IH.
Qed.

Lemma blank_ascii_only (a : string) : blank a = true -> ascii_only a = true.
Proof.
  induction a as [|c a IH]; intros Ha; [reflexivity|].
  cbn [blank ascii_only] in *.
  apply andb_true_iff in Ha as [Hc Ha].
  apply andb_true_iff in Hc as [Hc _]. now rewrite Hc, IH.
Qed.

Lemma ascii_runes_app (a b : string) :
  ascii_runes (a ++ b) = (ascii_runes a ++ ascii_runes b)%list.
Proof. induction a as [|c a IH]; cbn; [reflexivity | now rewrite IH]. Qed.

Lemma join_ascii_runes (a : string) (l : list (Z * string)) :
  strings.join_bytes (ascii_runes a ++ l) = a ++ strings.join_bytes l.
Proof. induction a as [|c a IH]; cbn; [reflexivity | now rewrite IH]. Qed.

Lemma drop_space_blank (ws : string) (l : list (Z * string)) :
  blank ws = true ->
  strings.drop_space (rev (ascii_runes ws) ++ l) = strings.drop_space l.
Proof.
  revert l. induction ws as [|c ws IH]; intros l Hws; [reflexivity|].
  cbn [blank] in Hws. apply andb_true_iff in Hws as [Hc Hws].
  apply andb_true_iff in Hc as [_ Hc].
  cbn [ascii_runes rev]. rewrite <- app_assoc. rewrite IH by assumption.
  cbn [app strings.drop_space]. now rewrite Hc.
Qed.

Lemma drop_space_word (w : string) (l : list (Z * string)) :
  word w ->
  strings.drop_space (ascii_runes w ++ l) = (ascii_runes w ++ l)%list.
Proof.
  intros [Hne Hv]. destruct w as [|c w]; [congruence|].
  cbn [visible] in Hv. apply andb_true_iff in Hv as [Hc _].
  apply andb_true_iff in Hc as [_ Hc]. apply negb_true_iff in Hc.
  cbn [ascii_runes app strings.drop_space]. now rewrite Hc.
Qed.

Lemma drop_space_word_rev (w : string) (l : list (Z * string)) :
  word w ->
  strings.drop_space (rev (ascii_runes w) ++ l)
  = (rev (ascii_runes w) ++ l)%list.
Proof.
  intros [Hne Hv].
  assert (Hall : Forall (fun r => unicode.IsSpace (fst r) = false)
                        (ascii_runes w)).
  { clear Hne. induction w as [|c w IH]; [constructor|].
    cbn [visible] in Hv. apply andb_true_iff in Hv as [Hc Hv].
    apply andb_true_iff in Hc as [_ Hc]. apply negb_true_iff in Hc.
    constructor; [exact Hc | now apply IH]. }
  apply Forall_rev in Hall.
  destruct (rev (ascii_runes w)) as [|[r bs] l'] eqn:E.
  - apply (f_equal (@List.length _)) in E. rewrite length_rev in E.
    destruct w; [congruence | discriminate].
  - inversion Hall as [|? ? Hr _]; subst. cbn [fst] in Hr.
    cbn [app strings.drop_space]. now rewrite Hr.
Qed.

(** White space after an ASCII text that starts and ends with a word
    is trimmed, and nothing else. *)
Lemma trim_trailing_blank (w1 x wl ws : string) :
  word w1 -> ascii_only x = true -> word wl -> blank ws = true ->
  strings.TrimSpace (w1 ++ x ++ wl ++ ws) = w1 ++ x ++ wl.
Proof.
  intros H1 Hx Hl Hws. unfold strings.TrimSpace, utf8.runes.
  rewrite runes_ascii_only by (apply visible_ascii_only, H1).
  rewrite runes_ascii_only by assumption.
  rewrite runes_ascii_only by (apply visible_ascii_only, Hl).
  rewrite <- (append_empty_r ws) at 1.
  rewrite runes_ascii_only by (now apply blank_ascii_only).
  cbn [utf8.runes_from]. rewrite app_nil_r.
  rewrite drop_space_word by assumption.
  rewrite !rev_app_distr, <- !app_assoc.
  rewrite drop_space_blank by assumption.
  rewrite drop_space_word_rev by assumption.
  rewrite !rev_app_distr, !rev_involutive, <- !app_assoc.
  rewrite !join_ascii_runes.
  rewrite <- (app_nil_r (ascii_runes wl)), join_ascii_runes.
  cbn [strings.join_bytes]. now rewrite append_empty_r.
Qed.

Lemma trim_two_words (w1 w2 rest ws : string) :
  word w1 -> word w2 -> more_words rest -> blank ws = true ->
  strings.TrimSpace (w1 ++ String space (w2 ++ rest ++ ws))
  = w1 ++ String space (w2 ++ rest).
Proof.
  intros H1 H2 Hrest Hws. destruct Hrest as [-> | (x & w & -> & Hx & Hw)].
  - cbn [append]. rewrite append_empty_r.
    apply (trim_trailing_blank w1 " " w2 ws); auto.
  - replace (w1 ++ String space (w2 ++ String space (x ++ w) ++ ws))
      with (w1 ++ (String space (w2 ++ String space x)) ++ w ++ ws).
    + rewrite trim_trailing_blank; auto.
      * cbn [append]. now rewrite !append_assoc.
      * change (String space (w2 ++ String space x))
          with (" " ++ (w2 ++ String space x)).
        apply ascii_only_app; [reflexivity|].
        apply ascii_only_app; [now apply visible_ascii_only, H2|].
        cbn [ascii_only]. now rewrite Hx.
    + cbn [append]. now rewrite !append_assoc.
Qed.

(** X15: A detection from the output to the list: when the probe of python,
    ruby, go or rustc succeeds and prints ASCII text that starts with
    two words, followed by white space only or by more text that ends
    with a word and then white space, the version extracted is the
    second word and the entry is listed with it. *)
Theorem second_word_is_listed
  (m : Machine) (t : ToolSpec) (w1 w2 rest ws : string) :
  In t tool_specs ->
  is_command (tool_command t) ["python"; "ruby"; "go"; "rustc"] = true ->
  exec_err (probe_result m t) = None ->
  exec_output (probe_result m t) = w1 ++ String space (w2 ++ rest ++ ws) ->
  word w1 -> word w2 -> more_words rest -> blank ws = true ->
  extracted m t = w2
  /\ In {| Icon := tool_icon t; Name := tool_name t; Version := w2 |}
        (GetProgrammingLanguages m).
Proof.
  intros Ht Hc Hok Hout H1 H2 Hrest Hws.
  assert (He : extracted m t = w2).
  { rewrite runCommand_success by assumption.
    rewrite Hout, trim_two_words by assumption.
    unfold processVersionString. rewrite Hc.
    destruct (fields_first_two w1 w2 rest H1 H2) as [others ->];
      [|reflexivity].
    destruct Hrest as [-> | (x & w & -> & _)]; [now left | right; eauto]. }
  split; [exact He|].
  rewrite detected_entries. apply in_map_iff. exists t. split.
  - unfold entry_of. now rewrite He.
  - apply filter_In. split; [assumption|]. rewrite He.
    apply negb_true_iff, String.eqb_neq. apply H2.
Qed.

Lemma second_word_witness :
  extracted machine_rust rust_tool = "1.70.0"
  /\ In {| Icon := tool_icon rust_tool; Name := tool_name rust_tool;
           Version := "1.70.0" |}
        (GetProgrammingLanguages machine_rust).
Proof.
  apply (second_word_is_listed machine_rust rust_tool
           "rustc" "1.70.0" " (90c541806 2023-05-31)" (str newline)).
  - simpl. tauto.
  - reflexivity.
  - reflexivity.
  - reflexivity.
  - split; [discriminate | reflexivity].
  - split; [discriminate | reflexivity].
  - right. exists "(90c541806 ", "2023-05-31)".
    repeat split; discriminate.
  - reflexivity.
Defined.
